(** * Projectile motion simulator: the trajectory engine

    A shallow embedding of [projectile-motion-simulator.cpp]: the two
    integration strategies of [ProjectileSimulator] ([calculateAnalytical],
    [calculateNumerical]) and the derived metrics ([getMaxHeight],
    [getRange], [getFlightTime]).

    Numbers are IEEE-754 binary32 values ([float] in the source), every
    operation rounded once to nearest-even, as specified by [SpecFloat].
    The unqualified [cos], [sin] and [sqrt] of the source are the C library
    functions on [double]: their argument is widened to binary64, and the
    result (for [cos] and [sin] after the multiplication by the initial
    velocity, which is carried out in binary64) is narrowed back on
    assignment to a [float] variable.  A library whose [cos] and [sin]
    return a [float] is covered as well: the product of two binary32
    numbers is exact in binary64, and the narrowing rounds it once.
    [cos] and [sin] themselves belong to the C library and are a parameter
    of the development.

    The two loops are written with fuel, one unit per evaluation of the
    loop condition: the drag-free loop does not end on every input. *)

From Stdlib Require Import ZArith List Bool Lia PeanoNat.
From Stdlib Require Import Floats.SpecFloat.
Import ListNotations.

(** ** Floating-point formats *)

(** A [float] of the source: a binary32 datum. *)
Definition float : Type := spec_float.

Module F64.
Definition prec : Z := 53.
Definition emax : Z := 1024.
Definition mul : spec_float -> spec_float -> spec_float := SFmul prec emax.
Definition sqrt : spec_float -> spec_float := SFsqrt prec emax.
(** Widening conversion [float -> double]; always exact. *)
Definition of_F32 (f : spec_float) : spec_float :=
  match f with
  | S754_finite s m e => binary_round prec emax s m e
  | _ => f
  end.
End F64.

Module F32.
Definition prec : Z := 24.
Definition emax : Z := 128.

Definition add : float -> float -> float := SFadd prec emax.
Definition sub : float -> float -> float := SFsub prec emax.
Definition mul : float -> float -> float := SFmul prec emax.
Definition div : float -> float -> float := SFdiv prec emax.
Definition opp : float -> float := SFopp.
Definition ltb : float -> float -> bool := SFltb.
Definition leb : float -> float -> bool := SFleb.
Definition eqb : float -> float -> bool := SFeqb.
Definition gtb (a b : float) : bool := SFltb b a.
Definition geb (a b : float) : bool := SFleb b a.

(** Narrowing conversion [double -> float]. *)
Definition of_F64 (f : spec_float) : float :=
  match f with
  | S754_finite s m e => binary_round prec emax s m e
  | _ => f
  end.

(** Conversion [size_t -> float]. *)
Definition of_nat (n : nat) : float :=
  binary_normalize prec emax (Z.of_nat n) 0 false.

(** The value of the decimal literal [num/den], correctly rounded. *)
Definition lit (num den : positive) : float :=
  SFdiv prec emax (S754_finite false num 0) (S754_finite false den 0).

Definition zero : float := S754_zero false.

Definition is_nan (f : float) : bool :=
  match f with S754_nan => true | _ => false end.
Definition is_zero (f : float) : bool :=
  match f with S754_zero _ => true | _ => false end.
(** Zero or a finite non-zero number: neither an infinity nor a NaN. *)
Definition is_finite (f : float) : bool :=
  match f with S754_zero _ | S754_finite _ _ _ => true | _ => false end.
(** A well-formed binary32 datum. *)
Definition valid (f : float) : bool := valid_binary prec emax f.
End F32.

Declare Scope f32_scope.
Delimit Scope f32_scope with f32.
Bind Scope f32_scope with float.
Infix "+" := F32.add : f32_scope.
Infix "-" := F32.sub : f32_scope.
Infix "*" := F32.mul : f32_scope.
Notation "- a" := (F32.opp a) : f32_scope.
Infix "<?" := F32.ltb : f32_scope.
Infix "<=?" := F32.leb : f32_scope.
Infix ">?" := F32.gtb : f32_scope.
Infix ">=?" := F32.geb : f32_scope.
Infix "==?" := F32.eqb (at level 70) : f32_scope.

(** ** Literals of the source *)

Definition PI : float := F32.lit 314159265 100000000.      (* 3.14159265f *)
Definition f_180 : float := F32.lit 180 1.                 (* 180.0f *)
Definition f_2 : float := F32.lit 2 1.                     (* 2.0f *)
Definition f_0_5 : float := F32.lit 5 10.                  (* 0.5f *)
Definition f_0_02 : float := F32.lit 2 100.                (* 0.02f *)
Definition f_0_01 : float := F32.lit 1 100.                (* 0.01f *)
Definition f_0_001 : float := F32.lit 1 1000.              (* 0.001f *)
Definition AIR_DENSITY : float := F32.lit 1225 1000.       (* 1.225f *)
Definition CROSS_SECTION_AREA : float := F32.lit 1 100.    (* 0.01f *)

(** ** The C library *)

Class Libm := {
  cos : spec_float -> spec_float;   (* double cos(double) *)
  sin : spec_float -> spec_float    (* double sin(double) *)
}.

(** ** Division sites

    Every floating-point division the engine performs is recorded, with
    the place it occurs at and its operands. *)

Inductive DivSite := by180 | byGravity | byMass | bySpeed.

Record DivEvent := mkDiv {
  site : DivSite;
  numerator : float;
  denominator : float
}.

Definition Logged (A : Type) : Type := (A * list DivEvent)%type.

Definition ret {A} (a : A) : Logged A := (a, []).

Definition bind {A B} (m : Logged A) (f : A -> Logged B) : Logged B :=
  let '(a, l1) := m in
  let '(b, l2) := f a in
  (b, l1 ++ l2).

Notation "x <- m ;; k" := (bind m (fun x => k))
  (at level 61, m at next level, right associativity).
Notation "' p <- m ;; k" := (bind m (fun p => k))
  (at level 61, p pattern, m at next level, right associativity).

Definition fdiv (s : DivSite) (a b : float) : Logged float :=
  (F32.div a b, [mkDiv s a b]).

Definition value {A} (m : Logged A) : A := fst m.
Definition divisions {A} (m : Logged A) : list DivEvent := snd m.

(** ** Data model *)

Record Vector2D := mkVector2D { x : float; y : float }.

Record ProjectileData := mkProjectileData {
  initialVelocity : float;
  angle : float;            (* in degrees *)
  gravity : float;
  airResistance : bool;
  dragCoefficient : float;
  mass : float
}.

(** The default constructor of [ProjectileData]. *)
Definition ProjectileData_default : ProjectileData :=
  {| initialVelocity := F32.lit 50 1;
     angle := F32.lit 45 1;
     gravity := F32.lit 98 10;
     airResistance := false;
     dragCoefficient := F32.lit 47 100;
     mass := F32.lit 1 1 |}.

Record ProjectileSimulator := mkSim {
  data : ProjectileData;
  trajectoryPoints : list Vector2D
}.

(** The constructor [ProjectileSimulator(const ProjectileData&)]. *)
Definition ProjectileSimulator_new (d : ProjectileData) : ProjectileSimulator :=
  {| data := d; trajectoryPoints := [] |}.

Definition push_back (p : Vector2D) (s : ProjectileSimulator) : ProjectileSimulator :=
  {| data := data s; trajectoryPoints := trajectoryPoints s ++ [p] |}.

Definition clear (s : ProjectileSimulator) : ProjectileSimulator :=
  {| data := data s; trajectoryPoints := [] |}.

(** ** The engine *)

Section Engine.
Context {libm : Libm}.

Local Open Scope f32_scope.

(** [float angleRad = data.angle * PI / 180.0f;] *)
Definition angleRad_of (d : ProjectileData) : Logged float :=
  fdiv by180 (angle d * PI) f_180.

(** [data.initialVelocity * cos(angleRad)], assigned to a [float]. *)
Definition vx_of (d : ProjectileData) (angleRad : float) : float :=
  F32.of_F64 (F64.mul (F64.of_F32 (initialVelocity d)) (cos (F64.of_F32 angleRad))).

(** [data.initialVelocity * sin(angleRad)], assigned to a [float]. *)
Definition vy_of (d : ProjectileData) (angleRad : float) : float :=
  F32.of_F64 (F64.mul (F64.of_F32 (initialVelocity d)) (sin (F64.of_F32 angleRad))).

(** *** [calculateAnalytical]

    The [for] loop of the source, one unit of fuel per evaluation of its
    condition; [None] when the fuel is used up before the loop is left. *)
Fixpoint analyticalLoop (fuel : nat) (vx vy totalTime dt t : float)
    (s : ProjectileSimulator) : option ProjectileSimulator :=
  match fuel with
  | O => None
  | S fuel' =>
      if t <=? totalTime then
        let x := vx * t in
        let y := vy * t - f_0_5 * gravity (data s) * t * t in
        if y <? F32.zero then Some s
        else analyticalLoop fuel' vx vy totalTime dt (t + dt)
               (push_back (mkVector2D x y) s)
      else Some s
  end.

Definition calculateAnalytical (fuel : nat) (s : ProjectileSimulator)
    : Logged (option ProjectileSimulator) :=
  angleRad <- angleRad_of (data s) ;;
  let vx := vx_of (data s) angleRad in
  let vy := vy_of (data s) angleRad in
  totalTime <- fdiv byGravity (f_2 * vy) (gravity (data s)) ;;
  let dt := f_0_02 in
  ret (analyticalLoop fuel vx vy totalTime dt F32.zero s).

(** *** [calculateNumerical] *)

(** The locals [x], [y], [vx], [vy] of [calculateNumerical]. *)
Record Locals := mkLocals { l_x : float; l_y : float; l_vx : float; l_vy : float }.

(** The body of the [while] loop after [push_back]: lines 74 to 88. *)
Definition numericalBody (d : ProjectileData) (dt : float) (st : Locals)
    : Logged Locals :=
  let '(mkLocals x y vx vy) := st in
  let speed := F32.of_F64 (F64.sqrt (F64.of_F32 (vx * vx + vy * vy))) in
  let dragForce :=
    f_0_5 * AIR_DENSITY * dragCoefficient d * CROSS_SECTION_AREA * speed * speed in
  '(dragAccelX, dragAccelY) <-
    (if speed >? f_0_001 then
       ax1 <- fdiv byMass dragForce (mass d) ;;
       ax2 <- fdiv bySpeed vx speed ;;
       ay1 <- fdiv byMass dragForce (mass d) ;;
       ay2 <- fdiv bySpeed vy speed ;;
       ret (- ax1 * ax2, - ay1 * ay2)
     else ret (F32.zero, F32.zero)) ;;
  let vx := vx + dragAccelX * dt in
  let vy := vy + (dragAccelY - gravity d) * dt in
  let x := x + vx * dt in
  let y := y + vy * dt in
  ret (mkLocals x y vx vy).

(** The [while] loop, one unit of fuel per evaluation of its condition. *)
Fixpoint numericalLoop (fuel : nat) (dt : float) (st : Locals)
    (s : ProjectileSimulator) : Logged (option ProjectileSimulator) :=
  match fuel with
  | O => ret None
  | S fuel' =>
      if l_y st >=? F32.zero then
        let s := push_back (mkVector2D (l_x st) (l_y st)) s in
        st' <- numericalBody (data s) dt st ;;
        if (10000 <? Z.of_nat (length (trajectoryPoints s)))%Z then ret (Some s)
        else numericalLoop fuel' dt st' s
      else ret (Some s)
  end.

Definition calculateNumerical (fuel : nat) (s : ProjectileSimulator)
    : Logged (option ProjectileSimulator) :=
  angleRad <- angleRad_of (data s) ;;
  let vx := vx_of (data s) angleRad in
  let vy := vy_of (data s) angleRad in
  let x := F32.zero in
  let y := F32.zero in
  let dt := f_0_01 in
  numericalLoop fuel dt (mkLocals x y vx vy) s.

(** *** [calculateTrajectory] *)

Definition calculateTrajectory (fuel : nat) (s : ProjectileSimulator)
    : Logged (option ProjectileSimulator) :=
  let s := clear s in
  if negb (airResistance (data s)) then calculateAnalytical fuel s
  else calculateNumerical fuel s.

End Engine.

(** ** Derived metrics *)

Section Metrics.
Local Open Scope f32_scope.

Definition getMaxHeight (s : ProjectileSimulator) : float :=
  fold_left (fun maxH point => if y point >? maxH then y point else maxH)
            (trajectoryPoints s) F32.zero.

Definition getRange (s : ProjectileSimulator) : float :=
  match trajectoryPoints s with
  | [] => F32.zero
  | p :: ps => x (last ps p)
  end.

Definition getFlightTime (s : ProjectileSimulator) : float :=
  F32.of_nat (length (trajectoryPoints s))
  * (if airResistance (data s) then f_0_01 else f_0_02).

End Metrics.


(** * Notions used to state the properties *)

Section Notions.
Local Open Scope f32_scope.

Definition size (s : ProjectileSimulator) : Z :=
  Z.of_nat (length (trajectoryPoints s)).

(** Not a positive number: a NaN, a zero, or a negative number. *)
Definition not_positive (f : float) : bool :=
  match f with
  | S754_nan | S754_zero _ | S754_infinity true | S754_finite true _ _ => true
  | _ => false
  end.

(** [trajectoryPoints.back()], when there is a point. *)
Definition back (s : ProjectileSimulator) : option Vector2D :=
  match trajectoryPoints s with
  | [] => None
  | p :: ps => Some (last ps p)
  end.

(** The sampling step of each path. *)
Definition timeStep (drag : bool) : float :=
  if drag then F32.lit 1 100 else F32.lit 2 100.

(** The body of the loop of [getMaxHeight]. *)
Definition higher (maxH : float) (point : Vector2D) : float :=
  if y point >? maxH then y point else maxH.

(** ** The drag path *)

Definition position (st : Locals) : Vector2D := mkVector2D (l_x st) (l_y st).

(** The state the loop body leaves behind. *)
Definition numericalStep (d : ProjectileData) (dt : float) (st : Locals) : Locals :=
  value (numericalBody d dt st).

(** [speed = sqrt(vx² + vy²)] *)
Definition speed_of (st : Locals) : float :=
  F32.of_F64 (F64.sqrt (F64.of_F32 (l_vx st * l_vx st + l_vy st * l_vy st))).

(** [F = ½·ρ·Cd·A·speed²], with ρ = 1.225 and A = 0.01. *)
Definition dragForce_of (d : ProjectileData) (speed : float) : float :=
  f_0_5 * F32.lit 1225 1000 * dragCoefficient d * F32.lit 1 100 * speed * speed.

(** [−(F/mass)·(v_axis/speed)] above the speed threshold, zero below. *)
Definition dragAccel_of (d : ProjectileData) (speed v_axis : float) : float :=
  if speed >? F32.lit 1 1000
  then - F32.div (dragForce_of d speed) (mass d) * F32.div v_axis speed
  else F32.zero.

(** One step as the specification words it: the velocity is advanced
    first, and the position is advanced with the new velocity. *)
Record EulerStep (d : ProjectileData) (dt : float) (st st' : Locals) : Prop := {
  step_vx : l_vx st' = l_vx st + dragAccel_of d (speed_of st) (l_vx st) * dt;
  step_vy : l_vy st' =
            l_vy st + (dragAccel_of d (speed_of st) (l_vy st) - gravity d) * dt;
  step_x : l_x st' = l_x st + l_vx st' * dt;
  step_y : l_y st' = l_y st + l_vy st' * dt
}.

(** The other order, position first: what the step must not be. *)
Definition positionFirstStep (d : ProjectileData) (dt : float) (st : Locals) : Locals :=
  let speed := speed_of st in
  {| l_x := l_x st + l_vx st * dt;
     l_y := l_y st + l_vy st * dt;
     l_vx := l_vx st + dragAccel_of d speed (l_vx st) * dt;
     l_vy := l_vy st + (dragAccel_of d speed (l_vy st) - gravity d) * dt |}.

(** The first [n] states of the integration started in [st]. *)
Fixpoint iterates (d : ProjectileData) (dt : float) (n : nat) (st : Locals)
    : list Locals :=
  match n with
  | O => []
  | S k => st :: iterates d dt k (numericalStep d dt st)
  end.

(** The state after [n] steps. *)
Fixpoint state_after (d : ProjectileData) (dt : float) (n : nat) (st : Locals)
    : Locals :=
  match n with
  | O => st
  | S k => state_after d dt k (numericalStep d dt st)
  end.

(** ** The drag-free path *)

(** The sampling instants [t, t + dt, (t + dt) + dt, ...]: the first [n]
    of them, and the one after those. *)
Fixpoint times (dt : float) (n : nat) (t : float) : list float :=
  match n with
  | O => []
  | S k => t :: times dt k (t + dt)
  end.

Fixpoint time_after (dt : float) (n : nat) (t : float) : float :=
  match n with
  | O => t
  | S k => time_after dt k (t + dt)
  end.

(** The sample at instant [t]: [(vx·t, vy·t − ½·g·t²)]. *)
Definition sample (g vx vy t : float) : Vector2D :=
  mkVector2D (vx * t) (vy * t - f_0_5 * g * t * t).

(** The sample at [t] is stored: [t <= T], and its [y] is not negative. *)
Definition emitted (g vx vy T t : float) : bool :=
  (t <=? T) && negb (y (sample g vx vy t) <? F32.zero).

End Notions.

Section Launch.
Context {libm : Libm}.
Local Open Scope f32_scope.

(** The launch angle in radians. *)
Definition launch_angleRad (d : ProjectileData) : float :=
  F32.div (angle d * PI) f_180.

(** [vx = v·cos(θ)], [vy = v·sin(θ)]. *)
Definition launch_vx (d : ProjectileData) : float := vx_of d (launch_angleRad d).
Definition launch_vy (d : ProjectileData) : float := vy_of d (launch_angleRad d).

(** [T = 2·vy/g]. *)
Definition totalTime_of (d : ProjectileData) : float :=
  F32.div (f_2 * launch_vy d) (gravity d).

(** The sample of the drag-free path at instant [t]. *)
Definition launch_sample (d : ProjectileData) : float -> Vector2D :=
  sample (gravity d) (launch_vx d) (launch_vy d).

(** The state the drag path starts from. *)
Definition launch_state (d : ProjectileData) : Locals :=
  mkLocals F32.zero F32.zero (launch_vx d) (launch_vy d).

(** Sample number [n] (from 0) is the first one that is not stored. *)
Definition stops_at (d : ProjectileData) (n : nat) : bool :=
  let keep := emitted (gravity d) (launch_vx d) (launch_vy d) (totalTime_of d) in
  forallb keep (times f_0_02 n F32.zero)
  && negb (keep (time_after f_0_02 n F32.zero)).

End Launch.

(** ** Parameter validation, as the specification asks for it *)

Section Validation.
Local Open Scope f32_scope.

(** [initialVelocity ≤ 0], [gravity ≤ 0], or with drag enabled
    [mass ≤ 0] or [dragCoefficient ≤ 0]. *)
Definition invalidParameters (d : ProjectileData) : bool :=
  (initialVelocity d <=? F32.zero)
  || (gravity d <=? F32.zero)
  || (airResistance d
      && ((mass d <=? F32.zero) || (dragCoefficient d <=? F32.zero))).

End Validation.

(** ** Values of the C library at the angles of the examples

    [cos] and [sin] at 0 and at ±1.57079637050628662109375, the [double]
    image of the [float] nearest to π/2 (which is what 90° becomes):
    cos = -4.371139000186241e-08 and sin = ±0.999999999999999.  Other
    arguments are outside the table and answered by a NaN. *)

Definition libm_cos (a : spec_float) : spec_float :=
  match a with
  | S754_zero _ => S754_finite false 4503599627370496 (-52)
  | S754_finite _ 7074237948887040 (-52) => S754_finite true 6605478498062028 (-77)
  | _ => S754_nan
  end.

Definition libm_sin (a : spec_float) : spec_float :=
  match a with
  | S754_zero s => S754_zero s
  | S754_finite s 7074237948887040 (-52) => S754_finite s 9007199254740983 (-53)
  | _ => S754_nan
  end.

Definition libm_examples : Libm := {| cos := libm_cos; sin := libm_sin |}.

(** ** Launch parameters of the examples *)

Definition params (v a g : float) (drag : bool) (cd m : float) : ProjectileData :=
  {| initialVelocity := v; angle := a; gravity := g;
     airResistance := drag; dragCoefficient := cd; mass := m |}.

(** 50 m/s at 0°, Earth, no drag. *)
Definition flat_shot : ProjectileData :=
  params (F32.lit 50 1) F32.zero (F32.lit 98 10) false (F32.lit 47 100) (F32.lit 1 1).

(** 50 m/s at 0°, Earth, drag enabled. *)
Definition flat_shot_drag : ProjectileData :=
  params (F32.lit 50 1) F32.zero (F32.lit 98 10) true (F32.lit 47 100) (F32.lit 1 1).

(** 50 m/s straight up, Earth, no drag. *)
Definition vertical_shot : ProjectileData :=
  params (F32.lit 50 1) (F32.lit 90 1) (F32.lit 98 10) false (F32.lit 47 100) (F32.lit 1 1).

(** 50 m/s straight up, Earth, drag enabled. *)
Definition vertical_shot_drag : ProjectileData :=
  params (F32.lit 50 1) (F32.lit 90 1) (F32.lit 98 10) true (F32.lit 47 100) (F32.lit 1 1).

(** A 1000 kg body at 1000 m/s straight up, Earth, drag enabled. *)
Definition heavy_shot : ProjectileData :=
  params (F32.lit 1000 1) (F32.lit 90 1) (F32.lit 98 10) true (F32.lit 47 100)
         (F32.lit 1000 1).

(** A 1 g body at 50 m/s straight down, Earth, drag enabled. *)
Definition light_shot_down : ProjectileData :=
  params (F32.lit 50 1) (- F32.lit 90 1)%f32 (F32.lit 98 10) true (F32.lit 47 100)
         (F32.lit 1 1000).




(** 50 m/s at 0°, no drag, under an infinite gravity. *)
Definition infinite_gravity : ProjectileData :=
  params (F32.lit 50 1) F32.zero (S754_infinity false) false (F32.lit 47 100)
         (F32.lit 1 1).

(** A simulator holding only the origin. *)
Definition origin_only (d : ProjectileData) : ProjectileSimulator :=
  {| data := d; trajectoryPoints := [mkVector2D F32.zero F32.zero] |}.

(** A simulator holding three points: (0,0), (10,5), (20,0). *)
Definition arc_example : ProjectileSimulator :=
  {| data := flat_shot;
     trajectoryPoints :=
       [mkVector2D F32.zero F32.zero;
        mkVector2D (F32.lit 10 1) (F32.lit 5 1);
        mkVector2D (F32.lit 20 1) F32.zero] |}.

(** ** Proof steps for the order on floats *)

Ltac fold_pos_compare :=
  repeat match goal with
  | |- context [ Pos.compare_cont Eq ?a ?b ] =>
      change (Pos.compare_cont Eq a b) with (a ?= b)%positive
  | H : context [ Pos.compare_cont Eq ?a ?b ] |- _ =>
      change (Pos.compare_cont Eq a b) with (a ?= b)%positive in H
  end.

Ltac order_cases :=
  repeat (fold_pos_compare;
  match goal with
  | H : context [ (?a ?= ?b)%Z ] |- _ =>
      destruct (Z.compare_spec a b); try discriminate H
  | H : context [ (?a ?= ?b)%positive ] |- _ =>
      destruct (Pos.compare_spec a b); try discriminate H
  | |- context [ (?a ?= ?b)%Z ] => destruct (Z.compare_spec a b)
  | |- context [ (?a ?= ?b)%positive ] => destruct (Pos.compare_spec a b)
  end; cbn in *).

(** * The consumers of the engine

    [visualizeTrajectory], [showTrajectoryData], [compareAngles] and
    [compareAirResistance]: what they compute, without the formatting of
    the text they print. *)

(** ** Conversions between [int] and [float] *)

Definition INT_MIN : Z := - 2 ^ 31.
Definition INT_MAX : Z := 2 ^ 31 - 1.

Definition in_int (z : Z) : bool := (INT_MIN <=? z)%Z && (z <=? INT_MAX)%Z.

(** The integral part of a finite float, rounded toward zero. *)
Definition truncate (f : float) : option Z :=
  match f with
  | S754_zero _ => Some 0%Z
  | S754_finite s m e =>
      Some (cond_Zopp s
              (match e with
               | Zneg p => Z.shiftr (Zpos m) (Zpos p)
               | _ => Z.shiftl (Zpos m) e
               end))
  | _ => None
  end.

(** [(int)f]: the behaviour is undefined ([None]) when the integral part
    is not a value of [int], as for a NaN or an infinity. *)
Definition float_to_int (f : float) : option Z :=
  match truncate f with
  | Some z => if in_int z then Some z else None
  | None => None
  end.

(** An [int] operand of a [float] operation. *)
Definition int_to_float (z : Z) : float := binary_normalize F32.prec F32.emax z 0 false.

(** [a - b] on [int]: undefined on overflow. *)
Definition int_sub (a b : Z) : option Z :=
  if in_int (a - b) then Some (a - b)%Z else None.

(** Sequencing of steps that may be undefined or unfinished. *)
Definition obind {A B} (m : option A) (f : A -> option B) : option B :=
  match m with
  | Some a => f a
  | None => None
  end.

Notation "x <~ m ;; k" := (obind m (fun x => k))
  (at level 61, m at next level, right associativity).

(** ** [visualizeTrajectory] *)

(** The characters of the canvas: [' '], ['─'], ['*'], ['S'], ['L']. *)
Inductive Cell := Blank | Ground | Star | Start | Landing.

Definition WIDTH : Z := 80.
Definition HEIGHT : Z := 25.

(** [char canvas[HEIGHT][WIDTH]]: the rows, from the top. *)
Definition Canvas : Type := list (list Cell).

Fixpoint replace_nth {A} (n : nat) (a : A) (l : list A) : list A :=
  match l, n with
  | [], _ => []
  | _ :: t, O => a :: t
  | h :: t, S k => h :: replace_nth k a t
  end.

(** [canvas[row][col] = c] for indices inside the array. *)
Definition put (cv : Canvas) (row col : Z) (c : Cell) : Canvas :=
  replace_nth (Z.to_nat row)
              (replace_nth (Z.to_nat col) c (nth (Z.to_nat row) cv [])) cv.

(** [canvas[row][col] = c]: undefined for indices outside the array. *)
Definition store (cv : Canvas) (row col : Z) (c : Cell) : option Canvas :=
  if ((0 <=? row) && (row <? HEIGHT) && (0 <=? col) && (col <? WIDTH))%Z
  then Some (put cv row col c)
  else None.

Definition cell (cv : Canvas) (row col : Z) : option Cell :=
  match nth_error cv (Z.to_nat row) with
  | Some r => nth_error r (Z.to_nat col)
  | None => None
  end.

(** The two initialisation loops: blanks everywhere, then the ground on
    the last row. *)
Definition blankCanvas : Canvas :=
  repeat (repeat Blank (Z.to_nat WIDTH)) (Z.to_nat HEIGHT).

Definition drawGround (cv : Canvas) : Canvas :=
  fold_left (fun cv j => put cv (HEIGHT - 1) (Z.of_nat j) Ground)
            (seq 0 (Z.to_nat WIDTH)) cv.

(** The body of the plotting loop: lines 161 to 166. *)
Definition plotPoint (maxX maxY : float) (cv : Canvas) (point : Vector2D)
    : option Canvas :=
  x <~ float_to_int (F32.mul (F32.div (x point) maxX) (int_to_float (WIDTH - 1))) ;;
  q <~ float_to_int (F32.mul (F32.div (y point) maxY) (int_to_float (HEIGHT - 2))) ;;
  y <~ int_sub (HEIGHT - 2) q ;;
  if ((x >=? 0) && (x <? WIDTH) && (y >=? 0) && (y <? HEIGHT - 1))%Z
  then store cv y x Star
  else Some cv.

Fixpoint plotPoints (maxX maxY : float) (cv : Canvas) (pts : list Vector2D)
    : option Canvas :=
  match pts with
  | [] => Some cv
  | point :: rest =>
      cv' <~ plotPoint maxX maxY cv point ;;
      plotPoints maxX maxY cv' rest
  end.

(** What is printed: the canvas and the two numbers of the scale line. *)
Record Plot := mkPlot { canvas : Canvas; scaleX : float; scaleY : float }.

Definition visualizeTrajectory (s : ProjectileSimulator) : option Plot :=
  let cv := drawGround blankCanvas in
  let maxX := getRange s in
  let maxY := getMaxHeight s in
  cv <~ plotPoints maxX maxY cv (trajectoryPoints s) ;;
  cv <~ store cv (HEIGHT - 2) 0 Start ;;
  endX <~ float_to_int (F32.mul (F32.div (getRange s) maxX)
                                (int_to_float (WIDTH - 1))) ;;
  cv <~ (if (endX <? WIDTH - 1)%Z then store cv (HEIGHT - 2) endX Landing
         else Some cv) ;;
  Some (mkPlot cv maxX maxY).

(** ** [showTrajectoryData] *)

(** A printed line: time, x, y. *)
Record DataRow := mkRow { row_time : float; row_x : float; row_y : float }.

(** The loop [for (size_t i = 0; i < size; i += step)], with fuel;
    reading [trajectoryPoints[i]] outside the vector is undefined. *)
Fixpoint dataRows (fuel : nat) (pts : list Vector2D) (dt : float)
    (step i : nat) : option (list DataRow) :=
  match fuel with
  | O => None
  | S fuel' =>
      if (i <? length pts)%nat then
        point <~ nth_error pts i ;;
        rest <~ dataRows fuel' pts dt step (i + step) ;;
        Some (mkRow (F32.mul (F32.of_nat i) dt) (x point) (y point) :: rest)
      else Some []
  end.

Definition showTrajectoryData (fuel : nat) (s : ProjectileSimulator)
    : option (list DataRow) :=
  let dt := if airResistance (data s) then f_0_01 else f_0_02 in
  let step := (length (trajectoryPoints s) / 10)%nat in
  let step := if (step =? 0)%nat then 1%nat else step in
  dataRows fuel (trajectoryPoints s) dt step 0.

(** ** [compareAngles] *)

(** A line of the table: angle, range, maximum height. *)
Record AngleRow := mkAngleRow { a_angle : Z; a_range : float; a_height : float }.

(** What is printed: the table, then the best angle and its range. *)
Record AngleScan := mkScan {
  table : list AngleRow;
  bestAngle : float;
  bestRange : float
}.

Section Callers.
Context {libm : Libm}.

(** The parameters of one line: the defaults, with the velocity read from
    the user, the angle of the line and no air resistance. *)
Definition angleData (velocity : float) (angle : Z) : ProjectileData :=
  {| initialVelocity := velocity;
     angle := int_to_float angle;
     gravity := gravity ProjectileData_default;
     airResistance := false;
     dragCoefficient := dragCoefficient ProjectileData_default;
     mass := mass ProjectileData_default |}.

(** The loop [for (int angle = 15; angle <= 75; angle += 5)]; [n] bounds
    the evaluations of its condition, [fuel] each run of the engine. *)
Fixpoint compareAnglesLoop (n fuel : nat) (velocity : float) (angle : Z)
    (acc : AngleScan) : option AngleScan :=
  match n with
  | O => None
  | S n' =>
      if (angle <=? 75)%Z then
        sim <~ value (calculateTrajectory fuel
                        (ProjectileSimulator_new (angleData velocity angle))) ;;
        let range := getRange sim in
        let acc :=
          if F32.gtb range (bestRange acc)
          then mkScan (table acc) (int_to_float angle) range
          else acc in
        compareAnglesLoop n' fuel velocity (angle + 5)
          (mkScan (table acc ++ [mkAngleRow angle range (getMaxHeight sim)])
                  (bestAngle acc) (bestRange acc))
      else Some acc
  end.

Definition compareAngles (fuel : nat) (velocity : float) : option AngleScan :=
  compareAnglesLoop 14 fuel velocity 15 (mkScan [] F32.zero F32.zero).

(** ** [compareAirResistance] *)

(** What is printed: the three metrics of both runs and the loss. *)
Record Comparison := mkComparison {
  range1 : float; range2 : float;
  height1 : float; height2 : float;
  time1 : float; time2 : float;
  rangeLoss : float
}.

(** [((r1 - r2) / r1) * 100] *)
Definition rangeLoss_of (r1 r2 : float) : float :=
  F32.mul (F32.div (F32.sub r1 r2) r1) (int_to_float 100).

Definition airData (velocity angle : float) (drag : bool) : ProjectileData :=
  {| initialVelocity := velocity;
     angle := angle;
     gravity := gravity ProjectileData_default;
     airResistance := drag;
     dragCoefficient := dragCoefficient ProjectileData_default;
     mass := mass ProjectileData_default |}.

Definition compareAirResistance (fuel : nat) (velocity angle : float)
    : option Comparison :=
  sim1 <~ value (calculateTrajectory fuel
                   (ProjectileSimulator_new (airData velocity angle false))) ;;
  sim2 <~ value (calculateTrajectory fuel
                   (ProjectileSimulator_new (airData velocity angle true))) ;;
  Some {| range1 := getRange sim1; range2 := getRange sim2;
          height1 := getMaxHeight sim1; height2 := getMaxHeight sim2;
          time1 := getFlightTime sim1; time2 := getFlightTime sim2;
          rangeLoss := rangeLoss_of (getRange sim1) (getRange sim2) |}.

End Callers.

(** ** Further notions and examples *)

(** Zero, a positive number or plus infinity. *)
Definition not_negative (f : float) : bool :=
  match f with
  | S754_zero _ | S754_finite false _ _ | S754_infinity false => true
  | _ => false
  end.

(** The first [n] states of the integration started in [st] all pass the
    test [y >= 0] of the loop. *)
Fixpoint stays_up (d : ProjectileData) (dt : float) (n : nat) (st : Locals) : bool :=
  match n with
  | O => true
  | S k => F32.geb (l_y st) F32.zero && stays_up d dt k (numericalStep d dt st)
  end.

(** A division of the drag loop: by the mass, or by the speed. *)
Definition drag_divisor (d : ProjectileData) (e : DivEvent) : Prop :=
  (site e = byMass /\ denominator e = mass d) \/ site e = bySpeed.

(** 50 m/s straight up, no drag, no gravity. *)
Definition weightless_shot : ProjectileData :=
  params (F32.lit 50 1) (F32.lit 90 1) F32.zero false (F32.lit 47 100) (F32.lit 1 1).

(** The same under a gravity of [-0.0f]. *)
Definition weightless_shot_minus : ProjectileData :=
  params (F32.lit 50 1) (F32.lit 90 1) (S754_zero true) false (F32.lit 47 100)
         (F32.lit 1 1).


(** A cell the plotting loop may leave above the ground. *)
Definition plot_cell (c : Cell) : Prop := c = Blank \/ c = Star \/ c = Start.

(** A canvas of 25 rows of 80 cells, with only blanks, stars and the
    start mark above the ground and the ground on the last row. *)
Definition canvas_ok (cv : Canvas) : Prop :=
  length cv = 25%nat /\
  Forall (fun r => length r = 80%nat) cv /\
  Forall (Forall plot_cell) (firstn 24 cv) /\
  nth_error cv 24 = Some (repeat Ground 80).

(** The step between two printed lines of [showTrajectoryData]. *)
Definition dataStep (s : ProjectileSimulator) : nat :=
  if (length (trajectoryPoints s) / 10 =? 0)%nat then 1%nat
  else (length (trajectoryPoints s) / 10)%nat.

(** The angles a scan visits from [angle] on, in at most [n] evaluations
    of the loop condition. *)
Fixpoint anglesFrom (n : nat) (angle : Z) : list Z :=
  match n with
  | O => []
  | S n' => if (angle <=? 75)%Z then angle :: anglesFrom n' (angle + 5) else []
  end.

(** A line of the table is what the run at its angle gives. *)
Definition row_of_run {libm : Libm} (fuel : nat) (velocity : float) (row : AngleRow)
    : Prop :=
  exists sim,
    value (calculateTrajectory fuel
             (ProjectileSimulator_new (angleData velocity (a_angle row)))) = Some sim /\
    a_range row = getRange sim /\ a_height row = getMaxHeight sim.

(** ** Values of the C library at the angles of the scan

    [cos] and [sin] at the [double] images of the radians of 15°, 20°, ...,
    75°; elsewhere the table of the examples. *)

Definition libm_scan_cos (a : spec_float) : spec_float :=
  match a with
  | S754_finite false 4716158632591360 (-54) => S754_finite false 8700286365702388 (-53)
  | S754_finite false 6288211689078784 (-54) => S754_finite false 8463998613100728 (-53)
  | S754_finite false 7860264208695296 (-54) => S754_finite false 8163294815557691 (-53)
  | S754_finite false 4716158632591360 (-53) => S754_finite false 7800463305934428 (-53)
  | S754_finite false 5502185429270528 (-53) => S754_finite false 7378265389726777 (-53)
  | S754_finite false 6288211689078784 (-53) => S754_finite false 6899914709649947 (-53)
  | S754_finite false 7074237948887040 (-53) => S754_finite false 6369051533325720 (-53)
  | S754_finite false 7860264208695296 (-53) => S754_finite false 5789716048456071 (-53)
  | S754_finite false 8646290468503552 (-53) => S754_finite false 5166317346132032 (-53)
  | S754_finite false 4716158632591360 (-52) => S754_finite false 9007198800115526 (-54)
  | S754_finite false 5109171762495488 (-52) => S754_finite false 7613213593342100 (-54)
  | S754_finite false 5502185429270528 (-52) => S754_finite false 6161285239308559 (-54)
  | S754_finite false 5895198559174656 (-52) => S754_finite false 4662467749329402 (-54)
  | _ => libm_cos a
  end.

Definition libm_scan_sin (a : spec_float) : spec_float :=
  match a with
  | S754_finite false 4716158632591360 (-54) => S754_finite false 4662469547087604 (-54)
  | S754_finite false 6288211689078784 (-54) => S754_finite false 6161287492735795 (-54)
  | S754_finite false 7860264208695296 (-54) => S754_finite false 7613213820429740 (-54)
  | S754_finite false 4716158632591360 (-53) => S754_finite false 4503599741026861 (-53)
  | S754_finite false 5502185429270528 (-53) => S754_finite false 5166317668646273 (-53)
  | S754_finite false 6288211689078784 (-53) => S754_finite false 5789716350060939 (-53)
  | S754_finite false 7074237948887040 (-53) => S754_finite false 6369051811725822 (-53)
  | S754_finite false 7860264208695296 (-53) => S754_finite false 6899914962726490 (-53)
  | S754_finite false 8646290468503552 (-53) => S754_finite false 7378265615553696 (-53)
  | S754_finite false 4716158632591360 (-52) => S754_finite false 7800463502793026 (-53)
  | S754_finite false 5109171762495488 (-52) => S754_finite false 8163294868504043 (-53)
  | S754_finite false 5502185429270528 (-52) => S754_finite false 8463999023190888 (-53)
  | S754_finite false 5895198559174656 (-52) => S754_finite false 8700286606556274 (-53)
  | _ => libm_sin a
  end.

Definition libm_scan : Libm := {| cos := libm_scan_cos; sin := libm_scan_sin |}.

(** The trajectory of the vertical shot: 511 samples. *)
Definition vertical_flight : ProjectileSimulator :=
  {| data := vertical_shot;
     trajectoryPoints :=
       map (launch_sample (libm := libm_examples) vertical_shot)
           (times f_0_02 511 F32.zero) |}.

(** * Properties *)

(** ** The logging monad *)

Lemma value_bind {A B} (m : Logged A) (f : A -> Logged B) :
  value (bind m f) = value (f (value m)).
Proof.
  unfold value, bind. destruct m as [a l1]; simpl.
  destruct (f a); reflexivity.
Qed.

Lemma divisions_bind {A B} (m : Logged A) (f : A -> Logged B) :
  divisions (bind m f) = divisions m ++ divisions (f (value m)).
Proof.
  unfold value, divisions, bind. destruct m as [a l1]; simpl.
  destruct (f a); reflexivity.
Qed.

Lemma value_ret {A} (a : A) : value (ret a) = a.
Proof. reflexivity. Qed.

Lemma divisions_ret {A} (a : A) : divisions (ret a) = [].
Proof. reflexivity. Qed.

(** ** The drag path: one integration step *)

Section NumericalStep.
Local Open Scope f32_scope.

Lemma numericalStep_EulerStep d dt st : EulerStep d dt st (numericalStep d dt st).
Proof.
  destruct st as [x0 y0 vx0 vy0].
  split; unfold numericalStep, numericalBody, dragAccel_of, dragForce_of, speed_of;
    cbn [l_x l_y l_vx l_vy];
    change (F32.lit 1225 1000) with AIR_DENSITY;
    change (F32.lit 1 100) with CROSS_SECTION_AREA;
    change (F32.lit 1 1000) with f_0_001;
    destruct (_ >? f_0_001); reflexivity.
Qed.

(** A step is a function of the state it starts from. *)
Lemma EulerStep_fun d dt st st1 st2 :
  EulerStep d dt st st1 -> EulerStep d dt st st2 -> st1 = st2.
Proof.
  intros [vx1 vy1 x1 y1] [vx2 vy2 x2 y2].
  destruct st1 as [a1 b1 c1 d1], st2 as [a2 b2 c2 d2]; cbn [l_x l_y l_vx l_vy] in *.
  subst c1 c2 d1 d2. subst. reflexivity.
Qed.

(** Divisions of one step: the ones by [speed] happen above the threshold. *)
Lemma numericalBody_divisions d dt st :
  Forall (fun e => site e = bySpeed -> (denominator e >? f_0_001) = true)
         (divisions (numericalBody d dt st)).
Proof.
  unfold numericalBody. destruct st as [x0 y0 vx0 vy0].
  set (speed := F32.of_F64 _).
  destruct (speed >? f_0_001) eqn:Hs; cbn.
  - repeat constructor; cbn; intros; try discriminate; exact Hs.
  - constructor.
Qed.

Lemma numericalBody_below_threshold d dt st :
  (speed_of st >? f_0_001) = false ->
  dragAccel_of d (speed_of st) (l_vx st) = F32.zero /\
  dragAccel_of d (speed_of st) (l_vy st) = F32.zero /\
  divisions (numericalBody d dt st) = [].
Proof.
  intros Hs. unfold dragAccel_of. fold f_0_001. rewrite Hs.
  repeat split. unfold numericalBody. destruct st as [x0 y0 vx0 vy0].
  unfold speed_of in Hs; cbn [l_vx l_vy] in Hs. rewrite Hs. reflexivity.
Qed.

End NumericalStep.

(** ** The drag path: the loop *)

Section NumericalLoop.
Local Open Scope f32_scope.

Lemma iterates_length d dt n st : length (iterates d dt n st) = n.
Proof. revert st; induction n; intros; simpl; auto. Qed.

Lemma iterates_nth d dt n st i :
  (i < n)%nat -> nth_error (iterates d dt n st) i = Some (state_after d dt i st).
Proof.
  revert st i; induction n; intros st i Hi; [lia|].
  destruct i; simpl; [reflexivity|]. apply IHn; lia.
Qed.

Lemma state_after_S d dt n st :
  state_after d dt (S n) st = numericalStep d dt (state_after d dt n st).
Proof. revert st; induction n; intros; simpl in *; auto. Qed.

Lemma size_push_back p s : size (push_back p s) = (size s + 1)%Z.
Proof. unfold size, push_back; simpl. rewrite length_app; simpl. lia. Qed.

Lemma numericalLoop_value_S fuel dt st s :
  value (numericalLoop (S fuel) dt st s) =
  if l_y st >=? F32.zero then
    let s1 := push_back (position st) s in
    if (10000 <? size s1)%Z then Some s1
    else value (numericalLoop fuel dt (numericalStep (data s) dt st) s1)
  else Some s.
Proof.
  cbn [numericalLoop]. destruct (l_y st >=? F32.zero); [|reflexivity].
  rewrite value_bind. cbv zeta. fold (position st).
  change (Z.of_nat (length (trajectoryPoints (push_back (position st) s))))
    with (size (push_back (position st) s)).
  destruct (10000 <? size _)%Z; reflexivity.
Qed.

Lemma numericalLoop_divisions_S fuel dt st s :
  divisions (numericalLoop (S fuel) dt st s) =
  if l_y st >=? F32.zero then
    let s1 := push_back (position st) s in
    divisions (numericalBody (data s) dt st) ++
    (if (10000 <? size s1)%Z then []
     else divisions (numericalLoop fuel dt (numericalStep (data s) dt st) s1))
  else [].
Proof.
  cbn [numericalLoop]. destruct (l_y st >=? F32.zero); [|reflexivity].
  rewrite divisions_bind. cbv zeta. fold (position st).
  change (Z.of_nat (length (trajectoryPoints (push_back (position st) s))))
    with (size (push_back (position st) s)).
  destruct (10000 <? size _)%Z; reflexivity.
Qed.

(** What a finished run of the loop has done: it stored the positions of
    the first [n] states, all of them with [y >= 0], and left either
    because the next [y] failed the test or because of the size check. *)
Lemma numericalLoop_run fuel dt st s r :
  value (numericalLoop fuel dt st s) = Some r ->
  exists n,
    (n <= fuel)%nat /\
    data r = data s /\
    trajectoryPoints r =
      trajectoryPoints s ++ map position (iterates (data s) dt n st) /\
    Forall (fun st' => (l_y st' >=? F32.zero) = true) (iterates (data s) dt n st) /\
    (((l_y (state_after (data s) dt n st) >=? F32.zero) = false /\ (n < fuel)%nat)
     \/ (n <> O /\ (10000 < size r)%Z)).
Proof.
  revert st s r; induction fuel as [|fuel IH]; intros st s r H.
  - discriminate.
  - rewrite numericalLoop_value_S in H.
    destruct (l_y st >=? F32.zero) eqn:Hy.
    + cbv zeta in H. destruct (10000 <? size _)%Z eqn:Hc.
      * injection H as <-. exists 1%nat. simpl.
        apply Z.ltb_lt in Hc.
        split; [lia|]. split; [reflexivity|]. split; [reflexivity|].
        split; [repeat constructor; exact Hy|].
        right. split; [discriminate|exact Hc].
      * apply IH in H. destruct H as (n & Hn & Hd & Hp & Hall & Hexit).
        exists (S n). cbn [data push_back trajectoryPoints] in *.
        split; [lia|]. split; [exact Hd|]. split; [|split].
        -- rewrite Hp. simpl. rewrite <- app_assoc. reflexivity.
        -- simpl. constructor; assumption.
        -- simpl. destruct Hexit as [[He Hlt]|[Hn0 Hsz]]; [left|right];
             split; auto; lia.
    + injection H as <-. exists O. simpl. rewrite app_nil_r.
      split; [lia|]. split; [reflexivity|]. split; [reflexivity|].
      split; [constructor|]. left. split; [assumption|lia].
Qed.

(** The size check bounds the run. *)
Lemma numericalLoop_size fuel dt st s r :
  value (numericalLoop fuel dt st s) = Some r ->
  (size r <= Z.max (size s + 1) 10001)%Z.
Proof.
  revert st s r; induction fuel as [|fuel IH]; intros st s r H.
  - discriminate.
  - rewrite numericalLoop_value_S in H.
    destruct (l_y st >=? F32.zero).
    + cbv zeta in H. destruct (10000 <? size _)%Z eqn:Hc.
      * injection H as <-. rewrite size_push_back. lia.
      * apply IH in H. apply Z.ltb_ge in Hc. rewrite size_push_back in *. lia.
    + injection H as <-. lia.
Qed.

(** Enough fuel: the loop is left after at most [10001 - size] pushes. *)
Lemma numericalLoop_total fuel dt st s :
  (1 <= fuel)%nat -> (10001 <= Z.of_nat fuel + size s)%Z ->
  exists r, value (numericalLoop fuel dt st s) = Some r.
Proof.
  revert st s; induction fuel as [|fuel IH]; intros st s H1 H2; [lia|].
  rewrite numericalLoop_value_S.
  destruct (l_y st >=? F32.zero); [|eauto].
  cbv zeta. destruct (10000 <? size _)%Z eqn:Hc; [eauto|].
  apply Z.ltb_ge in Hc. rewrite size_push_back in Hc.
  apply IH; [lia|]. rewrite size_push_back. lia.
Qed.

Lemma numericalLoop_divisions fuel dt st s :
  Forall (fun e => site e = bySpeed -> (denominator e >? f_0_001) = true)
         (divisions (numericalLoop fuel dt st s)).
Proof.
  revert st s; induction fuel as [|fuel IH]; intros st s.
  - constructor.
  - rewrite numericalLoop_divisions_S.
    destruct (l_y st >=? F32.zero); [|constructor].
    cbv zeta. apply Forall_app. split; [apply numericalBody_divisions|].
    destruct (10000 <? size _)%Z; [constructor|apply IH].
Qed.

End NumericalLoop.

(** ** The drag-free path: the loop *)

Section AnalyticalLoop.
Local Open Scope f32_scope.

Lemma times_length dt n t : length (times dt n t) = n.
Proof. revert t; induction n; intros; simpl; auto. Qed.

Lemma times_nth dt n t i :
  (i < n)%nat -> nth_error (times dt n t) i = Some (time_after dt i t).
Proof.
  revert t i; induction n; intros t i Hi; [lia|].
  destruct i; simpl; [reflexivity|]. apply IHn; lia.
Qed.

Lemma time_after_S dt n t : time_after dt (S n) t = time_after dt n t + dt.
Proof. revert t; induction n; intros; simpl in *; auto. Qed.

Lemma analyticalLoop_S fuel vx vy T dt t s :
  analyticalLoop (S fuel) vx vy T dt t s =
  if emitted (gravity (data s)) vx vy T t
  then analyticalLoop fuel vx vy T dt (t + dt)
         (push_back (sample (gravity (data s)) vx vy t) s)
  else Some s.
Proof.
  cbn [analyticalLoop]. unfold emitted, sample; cbn [y].
  destruct (t <=? T); [|reflexivity].
  destruct (_ <? F32.zero); reflexivity.
Qed.

(** If sample [n] is the first one that is not stored, the loop returns
    after storing the [n] samples before it. *)
Lemma analyticalLoop_stops n : forall fuel vx vy T dt t s,
  forallb (emitted (gravity (data s)) vx vy T) (times dt n t) = true ->
  emitted (gravity (data s)) vx vy T (time_after dt n t) = false ->
  (n < fuel)%nat ->
  analyticalLoop fuel vx vy T dt t s =
  Some {| data := data s;
          trajectoryPoints :=
            trajectoryPoints s
            ++ map (sample (gravity (data s)) vx vy) (times dt n t) |}.
Proof.
  induction n as [|n IH]; intros fuel vx vy T dt t s Hall Hstop Hfuel;
    (destruct fuel as [|fuel]; [lia|]); rewrite analyticalLoop_S.
  - simpl in Hstop. rewrite Hstop. simpl. rewrite app_nil_r.
    destruct s; reflexivity.
  - simpl in Hall. apply andb_true_iff in Hall. destruct Hall as [Ht Hall].
    rewrite Ht. rewrite (IH fuel); cbn [data push_back trajectoryPoints];
      try assumption; try lia.
    simpl. rewrite <- app_assoc. reflexivity.
Qed.

(** Conversely, a run that returns stopped at such a first sample. *)
Lemma analyticalLoop_run fuel : forall vx vy T dt t s r,
  analyticalLoop fuel vx vy T dt t s = Some r ->
  exists n, (n < fuel)%nat /\
    forallb (emitted (gravity (data s)) vx vy T) (times dt n t) = true /\
    emitted (gravity (data s)) vx vy T (time_after dt n t) = false.
Proof.
  induction fuel as [|fuel IH]; intros vx vy T dt t s r H; [discriminate|].
  rewrite analyticalLoop_S in H.
  destruct (emitted _ vx vy T t) eqn:Ht.
  - apply IH in H. destruct H as (n & Hn & Hall & Hstop).
    exists (S n). cbn [data push_back] in *. simpl. rewrite Ht.
    repeat split; auto; lia.
  - exists O. simpl. repeat split; auto; lia.
Qed.

(** When every sample is stored the loop never returns. *)
Lemma analyticalLoop_diverges fuel : forall vx vy T dt t s,
  (forall n, emitted (gravity (data s)) vx vy T (time_after dt n t) = true) ->
  analyticalLoop fuel vx vy T dt t s = None.
Proof.
  induction fuel as [|fuel IH]; intros vx vy T dt t s H; [reflexivity|].
  rewrite analyticalLoop_S. generalize (H O); cbn [time_after]; intros ->.
  apply IH.
  intros n. cbn [data push_back]. exact (H (S n)).
Qed.

(** In particular when the instant no longer advances. *)
Lemma analyticalLoop_stagnates fuel vx vy T dt t s :
  t + dt = t -> emitted (gravity (data s)) vx vy T t = true ->
  analyticalLoop fuel vx vy T dt t s = None.
Proof.
  intros Hfix Ht. apply analyticalLoop_diverges.
  induction n as [|n IH]; [exact Ht|].
  cbn [time_after]. rewrite Hfix. exact IH.
Qed.






Lemma emitted_nonneg g vx vy T t :
  emitted g vx vy T t = true -> (y (sample g vx vy t) <? F32.zero) = false.
Proof.
  unfold emitted. intros H. apply andb_true_iff in H. destruct H as [_ H].
  apply negb_true_iff in H. exact H.
Qed.

End AnalyticalLoop.

(** ** The two paths of [calculateTrajectory] *)

Section Paths.
Context {libm : Libm}.
Local Open Scope f32_scope.

Lemma calculateAnalytical_value fuel s :
  value (calculateAnalytical fuel s) =
  analyticalLoop fuel (launch_vx (data s)) (launch_vy (data s))
                 (totalTime_of (data s)) f_0_02 F32.zero s.
Proof. reflexivity. Qed.

Lemma calculateNumerical_value fuel s :
  value (calculateNumerical fuel s) =
  value (numericalLoop fuel f_0_01 (launch_state (data s)) s).
Proof.
  unfold calculateNumerical. rewrite value_bind. reflexivity.
Qed.

Lemma calculateNumerical_divisions fuel s :
  divisions (calculateNumerical fuel s) =
  mkDiv by180 (angle (data s) * PI) f_180
  :: divisions (numericalLoop fuel f_0_01 (launch_state (data s)) s).
Proof.
  unfold calculateNumerical. rewrite divisions_bind. reflexivity.
Qed.

Lemma calculateTrajectory_analytical fuel s :
  airResistance (data s) = false ->
  calculateTrajectory fuel s = calculateAnalytical fuel (clear s).
Proof. unfold calculateTrajectory. cbn [clear data]. intros ->. reflexivity. Qed.

Lemma calculateTrajectory_numerical fuel s :
  airResistance (data s) = true ->
  calculateTrajectory fuel s = calculateNumerical fuel (clear s).
Proof. unfold calculateTrajectory. cbn [clear data]. intros ->. reflexivity. Qed.

End Paths.

(** ** The drag path as a whole *)

Section DragPath.
Context {libm : Libm}.
Local Open Scope f32_scope.

Lemma drag_run fuel s r :
  airResistance (data s) = true ->
  value (calculateTrajectory fuel s) = Some r ->
  exists n,
    (n <= fuel)%nat /\
    data r = data s /\
    trajectoryPoints r =
      map position (iterates (data s) f_0_01 n (launch_state (data s))) /\
    Forall (fun st => (l_y st >=? F32.zero) = true)
           (iterates (data s) f_0_01 n (launch_state (data s))) /\
    (((l_y (state_after (data s) f_0_01 n (launch_state (data s))) >=? F32.zero)
        = false /\ (n < fuel)%nat)
     \/ (n <> O /\ (10000 < size r)%Z)).
Proof.
  intros Hdrag H. rewrite (calculateTrajectory_numerical _ _ Hdrag) in H.
  rewrite calculateNumerical_value in H.
  apply numericalLoop_run in H. exact H.
Qed.

Lemma drag_size fuel s r :
  airResistance (data s) = true ->
  value (calculateTrajectory fuel s) = Some r -> (size r <= 10001)%Z.
Proof.
  intros Hdrag H. rewrite (calculateTrajectory_numerical _ _ Hdrag) in H.
  rewrite calculateNumerical_value in H.
  apply numericalLoop_size in H. unfold size in *. simpl in H. lia.
Qed.

Lemma drag_total fuel s :
  airResistance (data s) = true -> (10001 <= Z.of_nat fuel)%Z ->
  exists r, value (calculateTrajectory fuel s) = Some r.
Proof.
  intros Hdrag Hfuel. rewrite (calculateTrajectory_numerical _ _ Hdrag).
  rewrite calculateNumerical_value.
  apply numericalLoop_total; unfold size; simpl; lia.
Qed.

(** Every stored point passed the test [y >= 0]. *)
Lemma drag_points_nonneg fuel s r :
  airResistance (data s) = true ->
  value (calculateTrajectory fuel s) = Some r ->
  Forall (fun p => (y p >=? F32.zero) = true) (trajectoryPoints r).
Proof.
  intros Hdrag H. destruct (drag_run _ _ _ Hdrag H) as (n & _ & _ & Hp & Hall & _).
  rewrite Hp. apply Forall_map. exact Hall.
Qed.

(** The first pass through the loop stores the origin. *)
Lemma drag_first_point fuel s r :
  airResistance (data s) = true ->
  value (calculateTrajectory fuel s) = Some r ->
  exists rest, trajectoryPoints r = mkVector2D F32.zero F32.zero :: rest.
Proof.
  intros Hdrag H. rewrite (calculateTrajectory_numerical _ _ Hdrag) in H.
  rewrite calculateNumerical_value in H.
  destruct fuel as [|fuel]; [discriminate|].
  rewrite numericalLoop_value_S in H.
  change (l_y (launch_state (data (clear s))) >=? F32.zero) with true in H.
  cbv zeta iota in H.
  destruct (10000 <? size _)%Z.
  - injection H as <-. exists []. reflexivity.
  - apply numericalLoop_run in H. destruct H as (n & _ & _ & Hp & _).
    rewrite Hp. cbn [push_back trajectoryPoints clear app].
    eexists. reflexivity.
Qed.

End DragPath.

(** ** Comparisons of floats *)

Section Comparisons.
Local Open Scope f32_scope.

Lemma ltb_trans a b c : (a <? b) = true -> (b <? c) = true -> (a <? c) = true.
Proof.
  unfold F32.ltb, SFltb.
  destruct a as [[]|[]| |[] m1 e1], b as [[]|[]| |[] m2 e2], c as [[]|[]| |[] m3 e3];
    cbn; try congruence; intros H1 H2;
    order_cases; subst; try reflexivity; try discriminate; try lia.
Qed.

(** Among numbers, "not below" is transitive. *)
Lemma ltb_neg_trans a b c :
  F32.is_nan b = false ->
  (a <? b) = false -> (b <? c) = false -> (a <? c) = false.
Proof.
  unfold F32.ltb, SFltb.
  destruct a as [[]|[]| |[] m1 e1], b as [[]|[]| |[] m2 e2], c as [[]|[]| |[] m3 e3];
    cbn; try congruence; intros Hn H1 H2;
    order_cases; subst; try reflexivity; try discriminate; try lia.
Qed.

Lemma ltb_irrefl a : (a <? a) = false.
Proof.
  unfold F32.ltb, SFltb. destruct a as [[]|[]| |[] m e]; cbn; try reflexivity;
    rewrite Z.compare_refl; fold_pos_compare; rewrite Pos.compare_refl; reflexivity.
Qed.

Lemma eqb_refl a : F32.is_nan a = false -> (a ==? a) = true.
Proof.
  unfold F32.eqb, SFeqb. destruct a as [[]|[]| |[] m e]; cbn; try congruence; intros _;
    rewrite Z.compare_refl; fold_pos_compare; rewrite Pos.compare_refl; reflexivity.
Qed.

Lemma ltb_not_nan a b : (a <? b) = true -> F32.is_nan a = false /\ F32.is_nan b = false.
Proof.
  destruct a as [[]|[]| |[] m1 e1], b as [[]|[]| |[] m2 e2]; cbn; intros H;
    split; try reflexivity; discriminate.
Qed.

Lemma not_ltb_zero_geb a :
  F32.is_nan a = false -> (a <? F32.zero) = false -> (a >=? F32.zero) = true.
Proof. destruct a as [[]|[]| |[] m e]; cbn; congruence. Qed.

(** At least zero and not above zero: a zero. *)
Lemma geb_zero_not_gtb a :
  (a >=? F32.zero) = true -> (F32.zero <? a) = false -> (a ==? F32.zero) = true.
Proof. destruct a as [[]|[]| |[] m e]; cbn; congruence. Qed.

Lemma geb_zero_not_ltb a : (a >=? F32.zero) = true -> (a <? F32.zero) = false.
Proof. destruct a as [[]|[]| |[] m e]; cbn; congruence. Qed.

Lemma gtb_threshold_nonzero a :
  (a >? f_0_001) = true -> (a ==? F32.zero) = false /\ F32.is_nan a = false.
Proof. destruct a as [[]|[]| |[] m e]; cbn; intros H; auto; discriminate. Qed.

End Comparisons.

(** ** The last element of a vector *)

Lemma last_cons_default {A} (l : list A) (a d : A) : last (a :: l) d = last l a.
Proof.
  revert a d; induction l as [|b l IH]; intros a d; [reflexivity|].
  change (last (a :: b :: l) d) with (last (b :: l) d).
  rewrite (IH b d), (IH b a). reflexivity.
Qed.

Lemma last_In {A} (l : list A) (a : A) : In (last l a) (a :: l).
Proof.
  revert a; induction l as [|b l IH]; intros a; [left; reflexivity|].
  rewrite last_cons_default. right. apply IH.
Qed.

(** ** Statements about the drag path *)

Section DragPathTheorems.
Context {libm : Libm}.
Local Open Scope f32_scope.

Lemma iterates_last d dt n : forall st,
  last (iterates d dt n (numericalStep d dt st)) st = state_after d dt n st.
Proof.
  induction n as [|n IH]; intros st; [reflexivity|].
  cbn [iterates state_after]. rewrite <- IH. apply last_cons_default.
Qed.

(** C2: with drag enabled the run returns, and it has stored at least one
    point.  Its stored points are, in this order, the positions of a
    sequence of states that starts at x = y = 0 with the launch velocity
    and in which each state follows from the one before by one step of
    size 0.01: speed = sqrt(vx²+vy²), F = ½·ρ·Cd·A·speed² with ρ = 1.225 and
    A = 0.01, accelerations −(F/mass)·(v_axis/speed), the velocity advanced
    first and the position advanced with the new velocity.  Every stored
    state has y >= 0, and the run ends when the state such a step makes of
    the last stored one fails that test, or with 10,001 points stored.
    The loop body of the source is such a step. *)
Theorem drag_steps_velocity_then_position (fuel : nat) (s : ProjectileSimulator) :
  airResistance (data s) = true ->
  (10001 <= Z.of_nat fuel)%Z ->
  exists (r : ProjectileSimulator) (first : Locals) (later : list Locals)
         (next : Locals),
    value (calculateTrajectory fuel s) = Some r /\
    trajectoryPoints r = map position (first :: later) /\
    first = mkLocals F32.zero F32.zero (launch_vx (data s)) (launch_vy (data s)) /\
    (forall i st st',
       nth_error (first :: later) i = Some st ->
       nth_error (first :: later) (S i) = Some st' ->
       EulerStep (data s) (F32.lit 1 100) st st') /\
    EulerStep (data s) (F32.lit 1 100) (last later first) next /\
    Forall (fun st => (l_y st >=? F32.zero) = true) (first :: later) /\
    ((l_y next >=? F32.zero) = false \/ size r = 10001%Z) /\
    (forall st, EulerStep (data s) (F32.lit 1 100) st
                  (value (numericalBody (data s) f_0_01 st))).
Proof.
  intros Hdrag Hfuel.
  destruct (drag_total _ _ Hdrag Hfuel) as [r Hr].
  pose proof (drag_size _ _ _ Hdrag Hr) as Hsize.
  destruct (drag_first_point _ _ _ Hdrag Hr) as [rest Hrest].
  destruct (drag_run _ _ _ Hdrag Hr) as (n & _ & _ & Hp & Hall & Hexit).
  destruct n as [|n]; [rewrite Hrest in Hp; discriminate Hp|].
  set (d := data s) in *. set (st0 := launch_state d) in *.
  exists r, st0, (iterates d f_0_01 n (numericalStep d f_0_01 st0)),
         (state_after d f_0_01 (S n) st0).
  split; [exact Hr|]. split; [exact Hp|]. split; [reflexivity|].
  change (st0 :: iterates d f_0_01 n (numericalStep d f_0_01 st0))
    with (iterates d f_0_01 (S n) st0).
  split; [|split; [|split; [|split]]].
  - intros i st st' Hi Hi'.
    assert (Hlt : (S i < S n)%nat).
    { rewrite <- (iterates_length d f_0_01 (S n) st0).
      apply nth_error_Some. rewrite Hi'. discriminate. }
    rewrite iterates_nth in Hi by lia. rewrite iterates_nth in Hi' by lia.
    assert (Est : st = state_after d f_0_01 i st0) by congruence.
    assert (Est' : st' = state_after d f_0_01 (S i) st0) by congruence.
    rewrite Est', Est, state_after_S. apply numericalStep_EulerStep.
  - rewrite iterates_last, state_after_S. apply numericalStep_EulerStep.
  - exact Hall.
  - destruct Hexit as [[He _]|[_ Hc]]; [left; exact He|right; lia].
  - intros st. apply numericalStep_EulerStep.
Qed.

(** C3, amended: with drag enabled a run stores at most 10,001 points,
    and it always returns: the size check leaves the loop once the vector
    holds more than 10,000 points. *)
Theorem drag_at_most_10001_samples (s : ProjectileSimulator) :
  airResistance (data s) = true ->
  (forall fuel r, value (calculateTrajectory fuel s) = Some r ->
                  (size r <= 10001)%Z) /\
  (forall fuel, (10001 <= Z.of_nat fuel)%Z ->
                exists r, value (calculateTrajectory fuel s) = Some r).
Proof.
  intros Hdrag. split.
  - intros fuel r H. exact (drag_size _ _ _ Hdrag H).
  - intros fuel Hfuel. exact (drag_total _ _ Hdrag Hfuel).
Qed.

(** C4, amended: with drag enabled the test [y >= 0] is made at the top of
    each iteration, before the point is appended: every stored point, the
    last one included, has y >= 0.  The loop is left when the state after
    the last stored point fails the test (that state is not stored), or
    when the vector has reached 10,001 points. *)
Theorem drag_stored_points_not_below_ground (fuel : nat) (s r : ProjectileSimulator) :
  airResistance (data s) = true ->
  value (calculateTrajectory fuel s) = Some r ->
  Forall (fun p => (y p >=? F32.zero) = true /\ (y p <? F32.zero) = false)
         (trajectoryPoints r) /\
  ((l_y (state_after (data s) (F32.lit 1 100) (length (trajectoryPoints r))
                     (launch_state (data s))) >=? F32.zero) = false
   \/ size r = 10001%Z).
Proof.
  intros Hdrag H. split.
  - eapply Forall_impl; [|exact (drag_points_nonneg _ _ _ Hdrag H)].
    intros p Hp. split; [exact Hp|]. apply geb_zero_not_ltb. exact Hp.
  - pose proof (drag_size _ _ _ Hdrag H) as Hsz.
    destruct (drag_run _ _ _ Hdrag H) as (n & _ & _ & Hp & _ & Hexit).
    rewrite Hp, length_map, iterates_length.
    destruct Hexit as [[He _]|[_ Hc]]; [left; exact He|right; lia].
Qed.

(** C8: every division by [speed] that a run performs has a divisor above
    0.001, hence neither zero nor a NaN; and in a step whose speed is not
    above 0.001 both drag accelerations are zero, nothing is divided, and
    the velocity is advanced with those zero accelerations. *)
Theorem speed_division_guarded (fuel : nat) (s : ProjectileSimulator) :
  Forall (fun e => site e = bySpeed ->
                   (denominator e >? F32.lit 1 1000) = true /\
                   (denominator e ==? F32.zero) = false /\
                   F32.is_nan (denominator e) = false)
         (divisions (calculateTrajectory fuel s)) /\
  (forall dt st,
     (speed_of st >? F32.lit 1 1000) = false ->
     dragAccel_of (data s) (speed_of st) (l_vx st) = F32.zero /\
     dragAccel_of (data s) (speed_of st) (l_vy st) = F32.zero /\
     divisions (numericalBody (data s) dt st) = [] /\
     l_vx (value (numericalBody (data s) dt st)) = l_vx st + F32.zero * dt /\
     l_vy (value (numericalBody (data s) dt st)) =
       l_vy st + (F32.zero - gravity (data s)) * dt).
Proof.
  split.
  - assert (Hloop : Forall (fun e => site e = bySpeed ->
                                     (denominator e >? f_0_001) = true)
                           (divisions (calculateTrajectory fuel s))).
    { unfold calculateTrajectory. destruct (negb _).
      - repeat constructor; cbn; discriminate.
      - rewrite calculateNumerical_divisions. constructor.
        + cbn; discriminate.
        + apply numericalLoop_divisions. }
    eapply Forall_impl; [|exact Hloop].
    intros e He Hsite. specialize (He Hsite). split; [exact He|].
    apply gtb_threshold_nonzero. exact He.
  - intros dt st Hs.
    destruct (numericalBody_below_threshold (data s) dt st Hs) as (Hx & Hy & Hd).
    destruct (numericalStep_EulerStep (data s) dt st) as [Hvx Hvy _ _].
    unfold numericalStep in Hvx, Hvy. rewrite Hx in Hvx. rewrite Hy in Hvy.
    repeat split; assumption.
Qed.

(** C10: with drag enabled, whatever the parameters, the run returns a
    trajectory that is not empty and whose first point is exactly (0,0). *)
Theorem drag_starts_at_origin (fuel : nat) (s : ProjectileSimulator) :
  airResistance (data s) = true ->
  (10001 <= Z.of_nat fuel)%Z ->
  exists r rest,
    value (calculateTrajectory fuel s) = Some r /\
    trajectoryPoints r = mkVector2D (S754_zero false) (S754_zero false) :: rest.
Proof.
  intros Hdrag Hfuel.
  destruct (drag_total _ _ Hdrag Hfuel) as [r Hr].
  destruct (drag_first_point _ _ _ Hdrag Hr) as [rest Hrest].
  exists r, rest. split; assumption.
Qed.

End DragPathTheorems.

(** ** The drag path on the examples *)

Lemma flat_shot_drag_run :
  value (calculateTrajectory (libm := libm_examples) 5
           (ProjectileSimulator_new flat_shot_drag))
  = Some (origin_only flat_shot_drag).
Proof. vm_compute. reflexivity. Qed.

Lemma stays_up_nth d dt n st i :
  stays_up d dt n st = true -> (i < n)%nat ->
  F32.geb (l_y (state_after d dt i st)) F32.zero = true.
Proof.
  revert st i; induction n as [|n IH]; intros st i H Hi; [lia|].
  cbn [stays_up] in H. apply andb_prop in H. destruct H as [H0 H].
  destruct i as [|i]; [exact H0|]. cbn [state_after]. apply IH; [exact H|lia].
Qed.

(** The heavy shot is still above the ground after 10,000 steps. *)
Lemma heavy_shot_stays_up :
  stays_up heavy_shot f_0_01 (Z.to_nat 10001)
    (launch_state (libm := libm_examples) heavy_shot) = true.
Proof. vm_compute. reflexivity. Qed.

Lemma heavy_shot_size :
  option_map size
    (value (calculateTrajectory (libm := libm_examples) (Z.to_nat 10001)
              (ProjectileSimulator_new heavy_shot)))
  = Some 10001%Z.
Proof.
  assert (Hfuel : (10001 <= Z.of_nat (Z.to_nat 10001))%Z) by (rewrite Z2Nat.id; lia).
  destruct (drag_total (libm := libm_examples) (Z.to_nat 10001)
              (ProjectileSimulator_new heavy_shot) eq_refl Hfuel) as [r Hr].
  rewrite Hr. cbn [option_map]. f_equal.
  assert (Hdrag : airResistance (data (ProjectileSimulator_new heavy_shot)) = true)
    by reflexivity.
  pose proof (drag_size _ _ _ Hdrag Hr) as Hsize.
  destruct (drag_run _ _ _ Hdrag Hr) as (n & _ & _ & _ & _ & [[Hneg Hlt]|[_ Hbig]]).
  - change (data (ProjectileSimulator_new heavy_shot)) with heavy_shot in Hneg.
    rewrite (stays_up_nth _ _ _ _ n heavy_shot_stays_up Hlt) in Hneg. discriminate.
  - lia.
Qed.

Lemma enough_fuel : (10001 <= Z.of_nat (Z.to_nat 10001))%Z.
Proof. rewrite Z2Nat.id; lia. Defined.

(** The light shot straight down: 77 points, the second one at
    y = 0.2187 above the ground. *)
Lemma light_shot_down_run :
  option_map (fun r => (length (trajectoryPoints r),
                        option_map y (nth_error (trajectoryPoints r) 1)))
    (value (calculateTrajectory (libm := libm_examples) (Z.to_nat 10001)
              (ProjectileSimulator_new light_shot_down)))
  = Some (77%nat, Some (S754_finite false 14677207 (-26))).
Proof. vm_compute. reflexivity. Qed.

Lemma drag_steps_velocity_then_position_witness :
  airResistance (data (ProjectileSimulator_new light_shot_down)) = true /\
  exists r first later next,
    value (calculateTrajectory (libm := libm_examples) (Z.to_nat 10001)
             (ProjectileSimulator_new light_shot_down)) = Some r /\
    trajectoryPoints r = map position (first :: later) /\
    length later = 76%nat /\
    first = launch_state (libm := libm_examples) light_shot_down /\
    (forall i st st',
       nth_error (first :: later) i = Some st ->
       nth_error (first :: later) (S i) = Some st' ->
       EulerStep light_shot_down (F32.lit 1 100) st st') /\
    option_map l_y (nth_error (first :: later) 1)
      = Some (S754_finite false 14677207 (-26)) /\
    EulerStep light_shot_down (F32.lit 1 100) (last later first) next /\
    F32.geb (l_y next) F32.zero = false.
Proof.
  split; [reflexivity|].
  destruct (drag_steps_velocity_then_position (libm := libm_examples)
              (Z.to_nat 10001) (ProjectileSimulator_new light_shot_down)
              eq_refl enough_fuel)
    as (r & first & later & next & Hr & Hp & Hf & Hsteps & Hnext & _ & Hexit & _).
  pose proof light_shot_down_run as E. rewrite Hr in E. cbn [option_map] in E.
  injection E as Elen Esecond.
  assert (Hlen : length later = 76%nat).
  { rewrite Hp in Elen. cbn [map length] in Elen. rewrite length_map in Elen.
    injection Elen as Elen. exact Elen. }
  exists r, first, later, next.
  split; [exact Hr|]. split; [exact Hp|]. split; [exact Hlen|]. split; [exact Hf|].
  split; [exact Hsteps|]. split; [|split; [exact Hnext|]].
  - rewrite Hp in Esecond.
    destruct later as [|st later']; [discriminate Hlen|]. exact Esecond.
  - destruct Hexit as [He|Hc]; [exact He|].
    unfold size in Hc. rewrite Hp in Hc. cbn [map length] in Hc.
    rewrite length_map, Hlen in Hc. lia.
Defined.

(** C3, counterexample: a valid launch with drag enabled (1000 kg at
    1000 m/s straight up) whose trajectory holds 10,001 points. *)
Lemma drag_cap_counterexample :
  invalidParameters heavy_shot = false /\
  airResistance heavy_shot = true /\
  ~ (forall r,
       value (calculateTrajectory (libm := libm_examples) (Z.to_nat 10001)
                (ProjectileSimulator_new heavy_shot)) = Some r ->
       (size r <= 10000)%Z).
Proof.
  split; [reflexivity|]. split; [reflexivity|].
  intros H. pose proof heavy_shot_size as E.
  destruct (value (calculateTrajectory _ _)) as [r|]; [|discriminate].
  specialize (H r eq_refl). cbn [option_map] in E. injection E as E. lia.
Qed.

Lemma drag_at_most_10001_samples_witness :
  airResistance (data (ProjectileSimulator_new heavy_shot)) = true /\
  (forall fuel r,
     value (calculateTrajectory (libm := libm_examples) fuel
              (ProjectileSimulator_new heavy_shot)) = Some r ->
     (size r <= 10001)%Z) /\
  (forall fuel, (10001 <= Z.of_nat fuel)%Z ->
     exists r, value (calculateTrajectory (libm := libm_examples) fuel
                        (ProjectileSimulator_new heavy_shot)) = Some r).
Proof.
  split; [reflexivity|].
  apply (drag_at_most_10001_samples (libm := libm_examples)
           (ProjectileSimulator_new heavy_shot)).
  reflexivity.
Defined.

(** C4, counterexample: no launch with drag enabled, valid or not, ends
    with a stored point whose y is negative. *)
Lemma drag_negative_last_point_counterexample :
  ~ (exists (libm : Libm) (d : ProjectileData) (fuel : nat)
            (r : ProjectileSimulator) (p : Vector2D),
       invalidParameters d = false /\
       airResistance d = true /\
       value (calculateTrajectory fuel (ProjectileSimulator_new d)) = Some r /\
       back r = Some p /\
       F32.ltb (y p) F32.zero = true).
Proof.
  intros (libm & d & fuel & r & p & _ & Hdrag & Hr & Hback & Hneg).
  pose proof (drag_points_nonneg fuel (ProjectileSimulator_new d) r Hdrag Hr) as Hall.
  unfold back in Hback. destruct (trajectoryPoints r) as [|q qs]; [discriminate|].
  injection Hback as <-.
  rewrite Forall_forall in Hall. specialize (Hall _ (last_In qs q)).
  apply geb_zero_not_ltb in Hall. congruence.
Qed.

Lemma drag_stored_points_not_below_ground_witness :
  airResistance (data (ProjectileSimulator_new flat_shot_drag)) = true /\
  value (calculateTrajectory (libm := libm_examples) 5
           (ProjectileSimulator_new flat_shot_drag))
    = Some (origin_only flat_shot_drag) /\
  Forall (fun p => F32.geb (y p) F32.zero = true /\ F32.ltb (y p) F32.zero = false)
         (trajectoryPoints (origin_only flat_shot_drag)) /\
  (F32.geb
     (l_y (state_after flat_shot_drag (F32.lit 1 100)
             (length (trajectoryPoints (origin_only flat_shot_drag)))
             (launch_state (libm := libm_examples) flat_shot_drag)))
     F32.zero = false
   \/ size (origin_only flat_shot_drag) = 10001%Z).
Proof.
  split; [reflexivity|]. split; [exact flat_shot_drag_run|].
  apply (drag_stored_points_not_below_ground (libm := libm_examples) 5
           (ProjectileSimulator_new flat_shot_drag) (origin_only flat_shot_drag));
    [reflexivity|exact flat_shot_drag_run].
Defined.

Lemma drag_starts_at_origin_witness :
  airResistance (data (ProjectileSimulator_new light_shot_down)) = true /\
  exists r rest,
    value (calculateTrajectory (libm := libm_examples) (Z.to_nat 10001)
             (ProjectileSimulator_new light_shot_down)) = Some r /\
    trajectoryPoints r = mkVector2D (S754_zero false) (S754_zero false) :: rest.
Proof.
  split; [reflexivity|].
  apply (drag_starts_at_origin (libm := libm_examples) (Z.to_nat 10001)
           (ProjectileSimulator_new light_shot_down));
    [reflexivity|exact enough_fuel].
Defined.

(** ** The derived metrics *)

Section MetricLemmas.
Local Open Scope f32_scope.

Lemma getMaxHeight_fold s :
  getMaxHeight s = fold_left higher (trajectoryPoints s) F32.zero.
Proof. reflexivity. Qed.

Lemma fold_higher_not_nan pts : forall m,
  F32.is_nan m = false -> F32.is_nan (fold_left higher pts m) = false.
Proof.
  induction pts as [|p pts IH]; intros m Hm; [exact Hm|].
  cbn [fold_left]. apply IH. unfold higher.
  destruct (y p >? m) eqn:Hc; [|exact Hm].
  apply ltb_not_nan in Hc. apply Hc.
Qed.

(** No point lies above the running maximum, nor does its start. *)
Lemma fold_higher_bound pts : forall m,
  F32.is_nan m = false ->
  (fold_left higher pts m <? m) = false /\
  (forall p, In p pts -> (fold_left higher pts m <? y p) = false).
Proof.
  induction pts as [|p pts IH]; intros m Hm.
  - split; [apply ltb_irrefl|intros p []].
  - cbn [fold_left].
    assert (Hm1 : F32.is_nan (higher m p) = false).
    { unfold higher. destruct (y p >? m) eqn:Hc; [|exact Hm].
      apply ltb_not_nan in Hc. apply Hc. }
    destruct (IH _ Hm1) as [Hlow Hall].
    destruct (m <? y p) eqn:Hc.
    + assert (E : higher m p = y p)
        by (unfold higher, F32.gtb; fold (m <? y p); rewrite Hc; reflexivity).
      rewrite E in *. split.
      * destruct (fold_left higher pts (y p) <? m) eqn:Hlt; [|reflexivity].
        rewrite (ltb_trans _ _ _ Hlt Hc) in Hlow. discriminate.
      * intros q [<-|Hq]; [exact Hlow|apply Hall; exact Hq].
    + assert (E : higher m p = m)
        by (unfold higher, F32.gtb; fold (m <? y p); rewrite Hc; reflexivity).
      rewrite E in *. split; [exact Hlow|].
      intros q [<-|Hq]; [|apply Hall; exact Hq].
      exact (ltb_neg_trans _ _ _ Hm Hlow Hc).
Qed.

(** The running maximum is where it started or at one of the points. *)
Lemma fold_higher_attained pts : forall m,
  fold_left higher pts m = m \/ exists p, In p pts /\ fold_left higher pts m = y p.
Proof.
  induction pts as [|p pts IH]; intros m; [left; reflexivity|].
  cbn [fold_left]. destruct (IH (higher m p)) as [E|(q & Hq & E)].
  - rewrite E. unfold higher. destruct (y p >? m).
    + right. exists p. split; [left; reflexivity|reflexivity].
    + left. reflexivity.
  - right. exists q. split; [right; exact Hq|exact E].
Qed.

(** A running maximum that has moved is at a point above its start. *)
Lemma fold_higher_above pts : forall m,
  fold_left higher pts m = m \/
  exists p, In p pts /\ fold_left higher pts m = y p /\ (m <? y p) = true.
Proof.
  induction pts as [|p pts IH]; intros m; [left; reflexivity|].
  cbn [fold_left]. destruct (m <? y p) eqn:Hc.
  - assert (E : higher m p = y p)
      by (unfold higher, F32.gtb; fold (m <? y p); rewrite Hc; reflexivity).
    rewrite E. destruct (IH (y p)) as [E1|(q & Hq & E1 & Hlt)].
    + right. exists p. split; [left; reflexivity|]. split; [exact E1|exact Hc].
    + right. exists q. split; [right; exact Hq|]. split; [exact E1|].
      exact (ltb_trans _ _ _ Hc Hlt).
  - assert (E : higher m p = m)
      by (unfold higher, F32.gtb; fold (m <? y p); rewrite Hc; reflexivity).
    rewrite E. destruct (IH m) as [E1|(q & Hq & E1 & Hlt)]; [left; exact E1|].
    right. exists q. split; [right; exact Hq|]. split; assumption.
Qed.

Lemma getRange_back s p : back s = Some p -> getRange s = x p.
Proof.
  unfold back, getRange. destruct (trajectoryPoints s); [discriminate|].
  intros H. injection H as <-. reflexivity.
Qed.

Lemma back_nonempty s : trajectoryPoints s <> [] -> exists p, back s = Some p.
Proof.
  unfold back. destruct (trajectoryPoints s); [congruence|]. eauto.
Qed.

End MetricLemmas.

(** ** The drag-free path as a whole *)

Section DragFreePath.
Context {libm : Libm}.
Local Open Scope f32_scope.

Lemma stops_at_split d n :
  stops_at d n = true <->
  forallb (emitted (gravity d) (launch_vx d) (launch_vy d) (totalTime_of d))
          (times f_0_02 n F32.zero) = true /\
  emitted (gravity d) (launch_vx d) (launch_vy d) (totalTime_of d)
          (time_after f_0_02 n F32.zero) = false.
Proof.
  unfold stops_at. cbv zeta. rewrite andb_true_iff, negb_true_iff. reflexivity.
Qed.

Lemma dragfree_stops fuel s n :
  airResistance (data s) = false ->
  stops_at (data s) n = true -> (n < fuel)%nat ->
  value (calculateTrajectory fuel s) =
  Some {| data := data s;
          trajectoryPoints := map (launch_sample (data s)) (times f_0_02 n F32.zero) |}.
Proof.
  intros Hdrag Hstop Hfuel. apply stops_at_split in Hstop. destruct Hstop as [Hall Hn].
  rewrite (calculateTrajectory_analytical _ _ Hdrag), calculateAnalytical_value.
  cbn [data clear].
  rewrite (analyticalLoop_stops n fuel _ _ _ _ _ (clear s) Hall Hn Hfuel).
  reflexivity.
Qed.

Lemma dragfree_run fuel s r :
  airResistance (data s) = false ->
  value (calculateTrajectory fuel s) = Some r ->
  exists n, (n < fuel)%nat /\ stops_at (data s) n = true /\
    r = {| data := data s;
           trajectoryPoints :=
             map (launch_sample (data s)) (times f_0_02 n F32.zero) |}.
Proof.
  intros Hdrag H. pose proof H as H0.
  rewrite (calculateTrajectory_analytical _ _ Hdrag), calculateAnalytical_value in H0.
  apply analyticalLoop_run in H0. destruct H0 as (n & Hn & Hall & Hstop).
  cbn [data clear] in *.
  assert (Hs : stops_at (data s) n = true) by (apply stops_at_split; auto).
  exists n. split; [exact Hn|]. split; [exact Hs|].
  rewrite (dragfree_stops _ _ _ Hdrag Hs Hn) in H. injection H as <-. reflexivity.
Qed.

(** Every stored sample passed the test: its [y] is not negative. *)
Lemma dragfree_points_not_negative fuel s r :
  airResistance (data s) = false ->
  value (calculateTrajectory fuel s) = Some r ->
  Forall (fun p => (y p <? F32.zero) = false) (trajectoryPoints r).
Proof.
  intros Hdrag H. destruct (dragfree_run _ _ _ Hdrag H) as (n & _ & Hs & ->).
  apply stops_at_split in Hs. destruct Hs as [Hall _].
  cbn [trajectoryPoints]. apply Forall_map.
  rewrite forallb_forall in Hall. apply Forall_forall. intros t Ht.
  apply (emitted_nonneg _ _ _ _ _ (Hall t Ht)).
Qed.

(** A run keeps the parameters. *)
Lemma run_data fuel s r :
  value (calculateTrajectory fuel s) = Some r -> data r = data s.
Proof.
  intros H. destruct (airResistance (data s)) eqn:Hdrag.
  - destruct (drag_run _ _ _ Hdrag H) as (n & _ & Hd & _). exact Hd.
  - destruct (dragfree_run _ _ _ Hdrag H) as (n & _ & _ & ->). reflexivity.
Qed.

(** A stored [y] that is a number is at least zero, on both paths. *)
Lemma run_points_nonneg fuel s r p :
  value (calculateTrajectory fuel s) = Some r ->
  In p (trajectoryPoints r) -> F32.is_nan (y p) = false ->
  (y p >=? F32.zero) = true.
Proof.
  intros H Hin Hnan. destruct (airResistance (data s)) eqn:Hdrag.
  - pose proof (drag_points_nonneg _ _ _ Hdrag H) as Hall.
    rewrite Forall_forall in Hall. exact (Hall p Hin).
  - pose proof (dragfree_points_not_negative _ _ _ Hdrag H) as Hall.
    rewrite Forall_forall in Hall. apply not_ltb_zero_geb; auto.
Qed.

End DragFreePath.

Section DragFreeTheorems.
Context {libm : Libm}.
Local Open Scope f32_scope.


(** C9: the flight time of a computed trajectory is the number of stored
    points multiplied by the time step of the path that produced it,
    0.02 without drag and 0.01 with drag. *)
Theorem flight_time_is_count_times_step (fuel : nat) (s r : ProjectileSimulator) :
  value (calculateTrajectory fuel s) = Some r ->
  getFlightTime r =
    F32.of_nat (length (trajectoryPoints r)) * timeStep (airResistance (data s)) /\
  value (calculateTrajectory fuel s) =
    (if airResistance (data s)
     then value (numericalLoop fuel (timeStep true) (launch_state (data s)) (clear s))
     else analyticalLoop fuel (launch_vx (data s)) (launch_vy (data s))
            (totalTime_of (data s)) (timeStep false) F32.zero (clear s)).
Proof.
  intros H. split.
  - unfold getFlightTime. rewrite (run_data _ _ _ H).
    unfold timeStep. destruct (airResistance (data s)); reflexivity.
  - destruct (airResistance (data s)) eqn:Hdrag.
    + rewrite (calculateTrajectory_numerical _ _ Hdrag), calculateNumerical_value.
      reflexivity.
    + rewrite (calculateTrajectory_analytical _ _ Hdrag), calculateAnalytical_value.
      reflexivity.
Qed.

(** C6, amended: on an empty trajectory the three metrics are zero.  On
    a trajectory that is not empty the range is the x of the last stored
    point.  The maximum height is the greatest of 0 and the stored y: it
    is at least 0, no stored y is above it, and it is either 0 or the y of
    a stored point above 0.  It is thus the y of a stored point as soon as
    one stored y is at least zero, which in a computed trajectory every
    stored y that is a number is. *)
Theorem metrics_of_trajectory (s : ProjectileSimulator) :
  (trajectoryPoints s = [] ->
     getMaxHeight s = S754_zero false /\
     getRange s = S754_zero false /\
     getFlightTime s = S754_zero false) /\
  (trajectoryPoints s <> [] -> exists p, back s = Some p /\ getRange s = x p) /\
  ((getMaxHeight s >=? F32.zero) = true /\
   (forall p, In p (trajectoryPoints s) -> (getMaxHeight s <? y p) = false) /\
   (getMaxHeight s = S754_zero false \/
    exists q, In q (trajectoryPoints s) /\ getMaxHeight s = y q /\
              (y q >? F32.zero) = true) /\
   ((exists p, In p (trajectoryPoints s) /\ (y p >=? F32.zero) = true) ->
    exists q, In q (trajectoryPoints s) /\ (y q ==? getMaxHeight s) = true)) /\
  (forall fuel s0 p,
     value (calculateTrajectory fuel s0) = Some s ->
     In p (trajectoryPoints s) -> F32.is_nan (y p) = false ->
     (y p >=? F32.zero) = true).
Proof.
  split; [|split; [|split]].
  - intros E. unfold getMaxHeight, getRange, getFlightTime. rewrite E.
    split; [reflexivity|]. split; [reflexivity|].
    destruct (airResistance (data s)); reflexivity.
  - intros Hne. destruct (back_nonempty s Hne) as [p Hp].
    exists p. split; [exact Hp|exact (getRange_back s p Hp)].
  - destruct (fold_higher_bound (trajectoryPoints s) F32.zero eq_refl) as [Hlow Hub].
    pose proof (fold_higher_not_nan (trajectoryPoints s) F32.zero eq_refl) as Hnan.
    rewrite getMaxHeight_fold.
    split; [apply not_ltb_zero_geb; assumption|]. split; [exact Hub|]. split.
    + destruct (fold_higher_above (trajectoryPoints s) F32.zero)
        as [E|(q & Hq & E & Hlt)]; [left; exact E|].
      right. exists q. split; [exact Hq|]. split; [exact E|exact Hlt].
    + intros (p & Hin & Hp).
      destruct (fold_higher_attained (trajectoryPoints s) F32.zero)
        as [E|(q & Hq & E)].
      * exists p. split; [exact Hin|]. rewrite E.
        apply geb_zero_not_gtb; [exact Hp|].
        specialize (Hub p Hin). rewrite E in Hub. exact Hub.
      * exists q. split; [exact Hq|]. rewrite E. apply eqb_refl.
        rewrite <- E. exact Hnan.
  - intros fuel s0 p H Hin Hnan. exact (run_points_nonneg _ _ _ _ H Hin Hnan).
Qed.

End DragFreeTheorems.

(** ** Rounding *)

Section Rounding.
Local Open Scope Z_scope.

Lemma digits2_pos_succ p :
  Zpos (digits2_pos (Pos.succ p)) <= Zpos (digits2_pos p) + 1.
Proof.
  induction p as [p IH|p IH|]; cbn [Pos.succ digits2_pos]; lia.
Qed.

(** A rounded result carries the sign it was given. *)
Lemma binary_round_aux_cases prec emax sx mx ex lx :
  let r := binary_round_aux prec emax sx mx ex lx in
  r = S754_nan \/ r = S754_zero sx \/ r = S754_infinity sx \/
  exists m e, r = S754_finite sx m e.
Proof.
  unfold binary_round_aux.
  destruct (shr_fexp prec emax mx ex lx) as [mrs' e'].
  destruct (shr_fexp prec emax _ e' loc_Exact) as [mrs'' e''].
  destruct (shr_m mrs'') as [|m|m]; auto.
  destruct (e'' <=? emax - prec); eauto 6.
Qed.

(** Halving a binary32 number does not overflow. *)
Lemma half_finite s m e :
  bounded 24 128 m e = true ->
  F32.is_finite
    (SFmul 24 128 (S754_finite false 8388608 (-24)) (S754_finite s m e)) = true.
Proof.
  unfold bounded, canonical_mantissa, fexp, emin. intros H.
  apply andb_true_iff in H. destruct H as [Hc He].
  apply Z.eqb_eq in Hc. apply Z.leb_le in He.
  unfold SFmul, binary_round_aux, shr_fexp.
  change (Pos.mul 8388608 m)
    with (m~0~0~0~0~0~0~0~0~0~0~0~0~0~0~0~0~0~0~0~0~0~0~0)%positive.
  assert (Hd : Zdigits2 (Zpos (m~0~0~0~0~0~0~0~0~0~0~0~0~0~0~0~0~0~0~0~0~0~0~0))
               = Zpos (digits2_pos m) + 23)
    by (cbn [Zdigits2 digits2_pos]; lia).
  rewrite Hd. clear Hd. unfold fexp, emin.
  destruct (Z.eq_dec e (-149)) as [->|Hne].
  - (* the smallest exponent: one more bit is shifted out and rounded *)
    replace (Z.max (Zpos (digits2_pos m) + 23 + (-24 + -149) - 24) (3 - 128 - 24)
             - (-24 + -149)) with 24 by lia.
    destruct m as [p|p|];
      cbn [shr shr_record_of_loc iter_pos shr_1 shr_m shr_r shr_s
           loc_of_shr_record round_nearest_even orb fst snd];
      cbn [digits2_pos] in Hc.
    + destruct (Z.even (Z.pos p)).
      * cbn [Zdigits2].
        replace (Z.max (Zpos (digits2_pos p) + (-24 + -149 + 24) - 24) (3 - 128 - 24)
                 - (-24 + -149 + 24)) with 0 by lia.
        reflexivity.
      * change (Z.pos p + 1) with (Z.pos (p + 1)). rewrite Pos.add_1_r.
        cbn [Zdigits2]. pose proof (digits2_pos_succ p).
        replace (Z.max (Zpos (digits2_pos (Pos.succ p)) + (-24 + -149 + 24) - 24)
                       (3 - 128 - 24) - (-24 + -149 + 24)) with 0 by lia.
        reflexivity.
    + cbn [Zdigits2].
      replace (Z.max (Zpos (digits2_pos p) + (-24 + -149 + 24) - 24) (3 - 128 - 24)
               - (-24 + -149 + 24)) with 0 by lia.
      reflexivity.
    + reflexivity.
  - (* otherwise the mantissa is kept and the exponent lowered by one *)
    assert (Zpos (digits2_pos m) = 24) by lia.
    replace (Z.max (Zpos (digits2_pos m) + 23 + (-24 + e) - 24) (3 - 128 - 24)
             - (-24 + e)) with 23 by lia.
    cbn [shr shr_record_of_loc iter_pos shr_1 shr_m shr_r shr_s
         loc_of_shr_record round_nearest_even orb fst snd].
    cbn [Zdigits2].
    replace (Z.max (Zpos (digits2_pos m) + (-24 + e + 23) - 24) (3 - 128 - 24)
             - (-24 + e + 23)) with 0 by lia.
    cbn [shr shr_record_of_loc shr_m].
    replace (-24 + e + 23 <=? 128 - 24) with true by (symmetry; apply Z.leb_le; lia).
    reflexivity.
Qed.

End Rounding.

Section Signs.
Local Open Scope f32_scope.

Lemma f_0_5_bits : f_0_5 = S754_finite false 8388608 (-24).
Proof. reflexivity. Qed.

Lemma f_2_bits : f_2 = S754_finite false 8388608 (-22).
Proof. reflexivity. Qed.

Lemma f_0_02_bits : f_0_02 = S754_finite false 10737418 (-29).
Proof. reflexivity. Qed.

Lemma positive_finite g :
  F32.is_finite g = true -> (g >? F32.zero) = true ->
  exists m e, g = S754_finite false m e.
Proof. destruct g as [[]|[]| |[] m e]; cbn; try discriminate; eauto. Qed.

Lemma half_gravity_finite g :
  F32.valid g = true -> F32.is_finite g = true -> F32.is_finite (f_0_5 * g) = true.
Proof.
  rewrite f_0_5_bits. destruct g as [s|s| |s m e]; cbn [F32.is_finite F32.valid valid_binary];
    try discriminate; intros Hv _; [reflexivity|].
  apply half_finite. exact Hv.
Qed.

Lemma mul_zero a : F32.is_finite a = true -> F32.is_zero (a * F32.zero) = true.
Proof. destruct a as [s|s| |s m e]; cbn; congruence. Qed.

Lemma zero_mul_zero a : F32.is_zero a = true -> F32.is_zero (a * F32.zero) = true.
Proof. destruct a as [s|s| |s m e]; cbn; congruence. Qed.

Lemma zero_sub_zero a b :
  F32.is_zero a = true -> F32.is_zero b = true -> F32.is_zero (a - b) = true.
Proof.
  destruct a as [[]|s| |s m e], b as [[]|s'| |s' m' e']; cbn; congruence.
Qed.

Lemma zero_not_negative a : F32.is_zero a = true -> (a <? F32.zero) = false.
Proof. destruct a as [s|s| |s m e]; cbn; congruence. Qed.

Lemma zero_not_above a : F32.is_zero a = true -> (F32.zero <? a) = false.
Proof. destruct a as [s|s| |s m e]; cbn; congruence. Qed.

(** The flight time of a launch that does not point upwards. *)
Lemma totalTime_not_positive vy g :
  (vy <=? F32.zero) = true ->
  F32.is_finite g = true -> (g >? F32.zero) = true ->
  let T := F32.div (f_2 * vy) g in
  not_positive T = true /\
  (F32.is_zero T = true -> F32.is_finite vy = true) /\
  (F32.is_zero vy = true -> F32.is_zero T = true).
Proof.
  intros Hvy Hfin Hpos. destruct (positive_finite g Hfin Hpos) as (mg & eg & ->).
  rewrite f_2_bits.
  destruct vy as [s|[]| |[] m e]; try discriminate Hvy; cbv zeta.
  - cbn. repeat split.
  - cbn. repeat split; discriminate.
  - unfold F32.mul, SFmul. cbn [xorb].
    destruct (binary_round_aux_cases F32.prec F32.emax true
                (Z.pos (8388608 * m)) (-22 + e) loc_Exact)
      as [E|[E|[E|(m' & e' & E)]]]; cbv zeta in E; rewrite E.
    + cbn. repeat split; discriminate.
    + cbn. repeat split; discriminate.
    + cbn. repeat split; discriminate.
    + unfold F32.div, SFdiv. cbn [xorb].
      destruct (SFdiv_core_binary F32.prec F32.emax (Z.pos m') e' (Z.pos mg) eg)
        as [[mz ez] lz].
      destruct (binary_round_aux_cases F32.prec F32.emax true mz ez lz)
        as [E'|[E'|[E'|(m'' & e'' & E')]]]; cbv zeta in E'; rewrite E';
        cbn; repeat split; discriminate.
Qed.

Lemma not_positive_below_step T : not_positive T = true -> (f_0_02 <=? T) = false.
Proof.
  rewrite f_0_02_bits. destruct T as [s|[]| |[] m e]; cbn; congruence.
Qed.

Lemma not_positive_at_zero T :
  not_positive T = true -> (F32.zero <=? T) = true -> F32.is_zero T = true.
Proof. destruct T as [s|[]| |[] m e]; cbn; congruence. Qed.

Lemma zero_le_zero T : F32.is_zero T = true -> (F32.zero <=? T) = true.
Proof. destruct T as [s|[]| |[] m e]; cbn; congruence. Qed.

End Signs.

(** ** Launches that do not point upwards, and parameters out of range *)

Section EdgeCases.
Context {libm : Libm}.
Local Open Scope f32_scope.

Lemma sample_at_zero d :
  F32.valid (gravity d) = true -> F32.is_finite (gravity d) = true ->
  F32.is_finite (launch_vx d) = true -> F32.is_finite (launch_vy d) = true ->
  F32.is_zero (x (launch_sample d F32.zero)) = true /\
  F32.is_zero (y (launch_sample d F32.zero)) = true.
Proof.
  intros Hv Hg Hvx Hvy. unfold launch_sample, sample; cbn [x y]. split.
  - apply mul_zero. exact Hvx.
  - apply zero_sub_zero; [apply mul_zero; exact Hvy|].
    apply zero_mul_zero. apply mul_zero. apply half_gravity_finite; assumption.
Qed.

(** C7, amended: without drag, for a finite gravity above zero and a
    finite vx, a launch whose vy is at most zero returns a trajectory that
    is empty or holds a single point with both coordinates zero, and its
    maximum height is 0; when vy is zero (as at 0°) it holds exactly that
    one point. *)
Theorem dragfree_launch_not_upwards (fuel : nat) (s : ProjectileSimulator) :
  airResistance (data s) = false ->
  F32.valid (gravity (data s)) = true ->
  F32.is_finite (gravity (data s)) = true ->
  (gravity (data s) >? F32.zero) = true ->
  F32.is_finite (launch_vx (data s)) = true ->
  (launch_vy (data s) <=? F32.zero) = true ->
  (2 <= fuel)%nat ->
  exists r,
    value (calculateTrajectory fuel s) = Some r /\
    (trajectoryPoints r = [] \/
     exists p, trajectoryPoints r = [p] /\
               F32.is_zero (x p) = true /\ F32.is_zero (y p) = true) /\
    getMaxHeight r = S754_zero false /\
    (F32.is_zero (launch_vy (data s)) = true ->
     length (trajectoryPoints r) = 1%nat).
Proof.
  intros Hdrag Hvalid Hfin Hpos Hvx Hvy Hfuel.
  destruct (totalTime_not_positive _ _ Hvy Hfin Hpos) as (HT & HTz & Hvz).
  fold (totalTime_of (data s)) in HT, HTz, Hvz.
  destruct (F32.zero <=? totalTime_of (data s)) eqn:H0.
  - (* the flight time is a zero: the sample at 0 is stored, the next is not *)
    pose proof (not_positive_at_zero _ HT H0) as Hz.
    destruct (sample_at_zero (data s) Hvalid Hfin Hvx (HTz Hz)) as [Hx Hy].
    assert (Hstop : stops_at (data s) 1 = true).
    { apply stops_at_split. cbn [times time_after forallb]. unfold emitted.
      fold (launch_sample (data s) F32.zero). rewrite H0, (zero_not_negative _ Hy).
      change (F32.zero + f_0_02) with f_0_02.
      rewrite (not_positive_below_step _ HT). split; reflexivity. }
    eexists. split; [apply (dragfree_stops fuel s 1 Hdrag Hstop); lia|].
    cbn [trajectoryPoints times map]. split; [|split].
    + right. eexists. split; [reflexivity|]. split; assumption.
    + unfold getMaxHeight. cbn [trajectoryPoints fold_left]. unfold F32.gtb.
      fold (F32.zero <? y (launch_sample (data s) F32.zero)).
      rewrite (zero_not_above _ Hy). reflexivity.
    + reflexivity.
  - (* the flight time is negative or a NaN: nothing is stored *)
    assert (Hstop : stops_at (data s) 0 = true).
    { apply stops_at_split. cbn [times time_after forallb]. unfold emitted.
      rewrite H0. split; reflexivity. }
    eexists. split; [apply (dragfree_stops fuel s 0 Hdrag Hstop); lia|].
    cbn [trajectoryPoints times map]. split; [|split].
    + left. reflexivity.
    + reflexivity.
    + intros Hz. rewrite (zero_le_zero _ (Hvz Hz)) in H0. discriminate.
Qed.


End EdgeCases.

(** ** The drag-free path and the metrics on the examples *)

(** The order of the two updates matters: after the first step of a
    vertical shot the body is at y = 0.4983, and it would be at y = 0.5 had
    the position been advanced first. *)
Remark position_first_differs :
  l_y (numericalStep vertical_shot_drag f_0_01
         (launch_state (libm := libm_examples) vertical_shot_drag))
    = S754_finite false 16720184 (-25) /\
  l_y (positionFirstStep vertical_shot_drag f_0_01
         (launch_state (libm := libm_examples) vertical_shot_drag))
    = S754_finite false 8388608 (-24).
Proof. split; vm_compute; reflexivity. Qed.

(** From 2^19 seconds on, adding the step no longer changes the instant. *)
Remark time_stagnates :
  F32.add (S754_finite false 8388608 (-4)) f_0_02 = S754_finite false 8388608 (-4).
Proof. vm_compute. reflexivity. Qed.

Lemma vertical_shot_stops : stops_at (libm := libm_examples) vertical_shot 511 = true.
Proof. vm_compute. reflexivity. Qed.

Lemma flat_shot_run :
  value (calculateTrajectory (libm := libm_examples) 2 (ProjectileSimulator_new flat_shot))
  = Some (origin_only flat_shot).
Proof. vm_compute. reflexivity. Qed.


Lemma flight_time_is_count_times_step_witness :
  value (calculateTrajectory (libm := libm_examples) 5
           (ProjectileSimulator_new flat_shot_drag))
    = Some (origin_only flat_shot_drag) /\
  getFlightTime (origin_only flat_shot_drag)
    = F32.mul (F32.of_nat 1) (F32.lit 1 100).
Proof.
  split; [exact flat_shot_drag_run|].
  exact (proj1 (flight_time_is_count_times_step (libm := libm_examples) 5
                  (ProjectileSimulator_new flat_shot_drag)
                  (origin_only flat_shot_drag) flat_shot_drag_run)).
Defined.

Lemma metrics_of_trajectory_witness :
  trajectoryPoints arc_example <> [] /\
  (exists p, In p (trajectoryPoints arc_example) /\ F32.geb (y p) F32.zero = true) /\
  (exists p, back arc_example = Some p /\ getRange arc_example = x p) /\
  (forall p, In p (trajectoryPoints arc_example) ->
             F32.ltb (getMaxHeight arc_example) (y p) = false) /\
  (exists q, In q (trajectoryPoints arc_example) /\
             F32.eqb (y q) (getMaxHeight arc_example) = true).
Proof.
  assert (Hne : trajectoryPoints arc_example <> []) by discriminate.
  assert (Hpos : exists p, In p (trajectoryPoints arc_example)
                           /\ F32.geb (y p) F32.zero = true).
  { exists (mkVector2D F32.zero F32.zero). split; [left; reflexivity|reflexivity]. }
  destruct (metrics_of_trajectory (libm := libm_examples) arc_example)
    as (_ & Hrange & (_ & Hub & _ & Hatt) & _).
  split; [exact Hne|]. split; [exact Hpos|]. split; [exact (Hrange Hne)|].
  split; [exact Hub|exact (Hatt Hpos)].
Defined.

(** C6, counterexample: the maximum height need not be the y of a stored
    point.  A launch at 0° under an infinite gravity, with parameters in
    range, returns one point whose y is a NaN; the maximum height of that
    trajectory is 0, and no stored y is equal to it. *)
Lemma max_height_counterexample :
  invalidParameters infinite_gravity = false /\
  exists r,
    value (calculateTrajectory (libm := libm_examples) 2
             (ProjectileSimulator_new infinite_gravity)) = Some r /\
    trajectoryPoints r = [mkVector2D (S754_zero false) S754_nan] /\
    getMaxHeight r = S754_zero false /\
    ~ (exists p, In p (trajectoryPoints r) /\
                 (y p = getMaxHeight r \/ F32.eqb (y p) (getMaxHeight r) = true)).
Proof.
  split; [reflexivity|].
  exists {| data := infinite_gravity;
            trajectoryPoints := [mkVector2D (S754_zero false) S754_nan] |}.
  split; [vm_compute; reflexivity|]. split; [reflexivity|]. split; [reflexivity|].
  intros (p & [<-|[]] & [H|H]); discriminate H.
Qed.

(** C7, counterexample: a valid launch with vy below zero (a 1 g body at
    50 m/s straight down, drag enabled) whose trajectory holds 77 points:
    the first step overshoots, vy turns positive and the second stored
    point is at y = 0.2187 above the ground. *)
Lemma downward_launch_counterexample :
  invalidParameters light_shot_down = false /\
  F32.leb (launch_vy (libm := libm_examples) light_shot_down) F32.zero = true /\
  option_map (fun r => (length (trajectoryPoints r),
                        option_map y (nth_error (trajectoryPoints r) 1)))
    (value (calculateTrajectory (libm := libm_examples) 100
              (ProjectileSimulator_new light_shot_down)))
    = Some (77%nat, Some (S754_finite false 14677207 (-26))) /\
  ~ (forall r,
       value (calculateTrajectory (libm := libm_examples) 100
                (ProjectileSimulator_new light_shot_down)) = Some r ->
       trajectoryPoints r = [] \/
       trajectoryPoints r = [mkVector2D F32.zero F32.zero]).
Proof.
  assert (E : option_map (fun r => (length (trajectoryPoints r),
                                    option_map y (nth_error (trajectoryPoints r) 1)))
                (value (calculateTrajectory (libm := libm_examples) 100
                          (ProjectileSimulator_new light_shot_down)))
              = Some (77%nat, Some (S754_finite false 14677207 (-26))))
    by (vm_compute; reflexivity).
  split; [reflexivity|]. split; [vm_compute; reflexivity|]. split; [exact E|].
  intros H. destruct (value (calculateTrajectory _ _)) as [r|]; [|discriminate].
  cbn [option_map] in E. injection E as E _.
  destruct (H r eq_refl) as [E0|E1]; [rewrite E0 in E|rewrite E1 in E]; discriminate.
Qed.

(** Without drag the gravity has to be finite: under an infinite one a
    launch at 0° has a flight time of zero and its one stored point has
    y = NaN. *)
Remark infinite_gravity_run :
  invalidParameters infinite_gravity = false /\
  F32.leb (launch_vy (libm := libm_examples) infinite_gravity) F32.zero = true /\
  option_map trajectoryPoints
    (value (calculateTrajectory (libm := libm_examples) 2
              (ProjectileSimulator_new infinite_gravity)))
    = Some [mkVector2D (S754_zero false) S754_nan].
Proof. repeat split; vm_compute; reflexivity. Qed.

Lemma dragfree_launch_not_upwards_witness :
  airResistance (data (ProjectileSimulator_new flat_shot)) = false /\
  F32.leb (launch_vy (libm := libm_examples) flat_shot) F32.zero = true /\
  exists r,
    value (calculateTrajectory (libm := libm_examples) 2
             (ProjectileSimulator_new flat_shot)) = Some r /\
    (trajectoryPoints r = [] \/
     exists p, trajectoryPoints r = [p] /\
               F32.is_zero (x p) = true /\ F32.is_zero (y p) = true) /\
    getMaxHeight r = S754_zero false /\
    (F32.is_zero (launch_vy (libm := libm_examples) flat_shot) = true ->
     length (trajectoryPoints r) = 1%nat).
Proof.
  split; [reflexivity|]. split; [vm_compute; reflexivity|].
  apply (dragfree_launch_not_upwards (libm := libm_examples) 2
           (ProjectileSimulator_new flat_shot)).
  - reflexivity.
  - vm_compute; reflexivity.
  - vm_compute; reflexivity.
  - vm_compute; reflexivity.
  - vm_compute; reflexivity.
  - vm_compute; reflexivity.
  - apply le_n.
Defined.




(** * Further properties of the engine *)

Section EngineExtras.
Context {libm : Libm}.
Local Open Scope f32_scope.

(** X1: the maximum height is never negative and never a NaN, whatever
    points are stored: it is at least zero. *)
Theorem getMaxHeight_at_least_zero (s : ProjectileSimulator) :
  (getMaxHeight s >=? F32.zero) = true /\
  F32.is_nan (getMaxHeight s) = false /\
  (getMaxHeight s <? F32.zero) = false.
Proof.
  rewrite getMaxHeight_fold.
  pose proof (fold_higher_not_nan (trajectoryPoints s) F32.zero eq_refl) as Hnan.
  destruct (fold_higher_bound (trajectoryPoints s) F32.zero eq_refl) as [Hlow _].
  split; [|split]; [|exact Hnan|exact Hlow].
  apply not_ltb_zero_geb; assumption.
Qed.

(** X2: computing again gives the same: a run on the simulator a run has
    returned, with its trajectory stored, equals the run that produced it,
    whatever the fuel of the first one. *)
Theorem calculateTrajectory_again (fuel fuel' : nat) (s r : ProjectileSimulator) :
  value (calculateTrajectory fuel' s) = Some r ->
  calculateTrajectory fuel r = calculateTrajectory fuel s.
Proof.
  intros H. pose proof (run_data _ _ _ H) as Hd.
  unfold calculateTrajectory, clear. rewrite Hd. reflexivity.
Qed.

(** X3: called on their own, without [clear], the two path methods only
    append: the points already stored stay in front.  The drag path adds
    the origin first, and adds nothing else when 10,000 points or more
    were already stored. *)
Theorem path_methods_append (fuel : nat) (s r : ProjectileSimulator) :
  (value (calculateAnalytical fuel s) = Some r ->
   exists added, trajectoryPoints r = trajectoryPoints s ++ added) /\
  (value (calculateNumerical fuel s) = Some r ->
   exists added,
     trajectoryPoints r =
       trajectoryPoints s ++ mkVector2D F32.zero F32.zero :: added /\
     ((10000 <= size s)%Z -> added = [])).
Proof.
  split.
  - rewrite calculateAnalytical_value. intros H. pose proof H as H0.
    apply analyticalLoop_run in H0. destruct H0 as (n & Hn & Hall & Hstop).
    rewrite (analyticalLoop_stops n fuel _ _ _ _ _ s Hall Hstop Hn) in H.
    injection H as <-. cbn [trajectoryPoints]. eauto.
  - rewrite calculateNumerical_value. intros H.
    destruct fuel as [|fuel]; [discriminate|].
    rewrite numericalLoop_value_S in H.
    change (l_y (launch_state (data s)) >=? F32.zero) with true in H.
    cbv zeta iota in H.
    destruct (10000 <? size _)%Z eqn:Hc.
    + injection H as <-. exists []. split; [reflexivity|reflexivity].
    + apply Z.ltb_ge in Hc. rewrite size_push_back in Hc.
      apply numericalLoop_run in H. destruct H as (n & _ & _ & Hp & _).
      eexists. split.
      * rewrite Hp. cbn [push_back trajectoryPoints].
        rewrite <- app_assoc. reflexivity.
      * intros Hbig. lia.
Qed.

End EngineExtras.

(** ** Rounding keeps numbers numbers *)

Section RoundingNotNan.
Local Open Scope Z_scope.

Lemma iter_pos_inv {A} (P : A -> Prop) (f : A -> A) :
  (forall a, P a -> P (f a)) -> forall p a, P a -> P (iter_pos f p a).
Proof.
  intros Hf. induction p as [p IH|p IH|]; intros a Ha; cbn [iter_pos]; auto.
Qed.

Lemma shr_1_nonneg mrs : 0 <= shr_m mrs -> 0 <= shr_m (shr_1 mrs).
Proof.
  destruct mrs as [m r s]. destruct m as [|[p|p|]|[p|p|]]; cbn; lia.
Qed.

Lemma shr_fexp_nonneg prec emax m e l :
  0 <= m -> 0 <= shr_m (fst (shr_fexp prec emax m e l)).
Proof.
  intros Hm. unfold shr_fexp, shr.
  assert (H0 : 0 <= shr_m (shr_record_of_loc m l)) by (destruct l as [|[]]; exact Hm).
  destruct (fexp prec emax (Zdigits2 m + e) - e); cbn [fst]; auto.
  apply iter_pos_inv; [exact shr_1_nonneg|exact H0].
Qed.

Lemma round_nearest_even_nonneg mx lx : 0 <= mx -> 0 <= round_nearest_even mx lx.
Proof.
  intros H. destruct lx as [|[]]; cbn; try destruct (Z.even mx); lia.
Qed.

(** Rounding a mantissa that is not negative never gives a NaN. *)
Lemma binary_round_aux_not_nan prec emax sx mx ex lx :
  0 <= mx -> binary_round_aux prec emax sx mx ex lx <> S754_nan.
Proof.
  intros Hm. unfold binary_round_aux.
  pose proof (shr_fexp_nonneg prec emax mx ex lx Hm) as H1.
  destruct (shr_fexp prec emax mx ex lx) as [mrs' e']. cbn [fst] in H1.
  pose proof (shr_fexp_nonneg prec emax _ e' loc_Exact
                (round_nearest_even_nonneg _ (loc_of_shr_record mrs') H1)) as H2.
  destruct (shr_fexp prec emax _ e' loc_Exact) as [mrs'' e'']. cbn [fst] in H2.
  destruct (shr_m mrs'') as [|m|m]; try discriminate; [|lia].
  destruct (e'' <=? emax - prec); discriminate.
Qed.

Lemma binary_round_aux_not_negative prec emax m ex lx :
  not_negative (binary_round_aux prec emax false (Zpos m) ex lx) = true.
Proof.
  pose proof (binary_round_aux_not_nan prec emax false (Zpos m) ex lx ltac:(lia)) as Hn.
  destruct (binary_round_aux_cases prec emax false (Zpos m) ex lx)
    as [E|[E|[E|(m' & e' & E)]]]; cbv zeta in E; rewrite E in *;
    [congruence|reflexivity|reflexivity|reflexivity].
Qed.

(** Doubling a positive binary32 number gives a positive number or plus
    infinity, never a zero. *)
Lemma double_positive m e :
  bounded 24 128 m e = true ->
  match SFmul 24 128 (S754_finite false 8388608 (-22)) (S754_finite false m e) with
  | S754_finite false _ _ | S754_infinity false => True
  | _ => False
  end.
Proof.
  unfold bounded, canonical_mantissa, fexp, emin. intros H.
  apply andb_true_iff in H. destruct H as [Hc He].
  apply Z.eqb_eq in Hc. apply Z.leb_le in He.
  unfold SFmul, binary_round_aux, shr_fexp.
  change (Pos.mul 8388608 m)
    with (m~0~0~0~0~0~0~0~0~0~0~0~0~0~0~0~0~0~0~0~0~0~0~0)%positive.
  assert (Hd : Zdigits2 (Zpos (m~0~0~0~0~0~0~0~0~0~0~0~0~0~0~0~0~0~0~0~0~0~0~0))
               = Zpos (digits2_pos m) + 23)
    by (cbn [Zdigits2 digits2_pos]; lia).
  rewrite Hd. clear Hd. unfold fexp, emin. cbn [xorb].
  destruct (Z.eq_dec (Zpos (digits2_pos m)) 24) as [Hd|Hd].
  - (* a normal number: the mantissa is kept, the exponent raised by one *)
    replace (Z.max (Zpos (digits2_pos m) + 23 + (-22 + e) - 24) (3 - 128 - 24)
             - (-22 + e)) with 23 by lia.
    cbn [shr shr_record_of_loc iter_pos shr_1 shr_m shr_r shr_s
         loc_of_shr_record round_nearest_even orb fst snd].
    cbn [Zdigits2].
    replace (Z.max (Zpos (digits2_pos m) + (-22 + e + 23) - 24) (3 - 128 - 24)
             - (-22 + e + 23)) with 0 by lia.
    cbn [shr shr_record_of_loc shr_m].
    destruct (-22 + e + 23 <=? 128 - 24); exact I.
  - (* a subnormal number: the mantissa is doubled *)
    assert (e = -149) by lia. subst e.
    replace (Z.max (Zpos (digits2_pos m) + 23 + (-22 + -149) - 24) (3 - 128 - 24)
             - (-22 + -149)) with 22 by lia.
    cbn [shr shr_record_of_loc iter_pos shr_1 shr_m shr_r shr_s
         loc_of_shr_record round_nearest_even orb fst snd].
    cbn [Zdigits2 digits2_pos].
    replace (Z.max (Z.pos (Pos.succ (digits2_pos m)) + (-22 + -149 + 22) - 24)
                   (3 - 128 - 24) - (-22 + -149 + 22)) with 0 by lia.
    cbn [shr shr_record_of_loc shr_m]. exact I.
Qed.

End RoundingNotNan.

(** ** Without gravity *)

Section ZeroGravity.
Context {libm : Libm}.
Local Open Scope f32_scope.

Lemma not_negative_next t : not_negative t = true -> not_negative (t + f_0_02) = true.
Proof.
  rewrite f_0_02_bits. destruct t as [s|[]| |[] m e]; try discriminate; intros _.
  - reflexivity.
  - reflexivity.
  - unfold F32.add, SFadd, binary_normalize, cond_Zopp.
    cbn [Z.add]. unfold binary_round.
    destruct (shl_align _ _ _) as [mz ez].
    apply binary_round_aux_not_negative.
Qed.

Lemma not_negative_time n : forall t,
  not_negative t = true -> not_negative (time_after f_0_02 n t) = true.
Proof.
  induction n as [|n IH]; intros t Ht; [exact Ht|].
  cbn [time_after]. apply IH. apply not_negative_next. exact Ht.
Qed.

Lemma not_negative_le_infinity t :
  not_negative t = true -> (t <=? S754_infinity false) = true.
Proof. destruct t as [s|[]| |[] m e]; cbn; congruence. Qed.

(** Where half the gravity is rounded to zero, the height of a sample is
    never negative. *)
Lemma sample_without_weight g vx m e t :
  f_0_5 * g = S754_zero false ->
  not_negative t = true ->
  (y (sample g vx (S754_finite false m e) t) <? F32.zero) = false.
Proof.
  intros Hg. unfold sample. cbn [y]. rewrite Hg.
  destruct t as [s|[]| |[] mt et]; try discriminate; intros _.
  - destruct s; reflexivity.
  - reflexivity.
  - change (S754_zero false * S754_finite false mt et * S754_finite false mt et)
      with (S754_zero false).
    unfold F32.mul at 1. unfold SFmul. cbn [xorb].
    pose proof (binary_round_aux_not_negative F32.prec F32.emax (m * mt) (e + et)
                  loc_Exact) as H.
    change (Z.pos (m * mt)) with (Z.pos m * Z.pos mt)%Z in H.
    destruct (binary_round_aux _ _ _ _ _ _) as [s|[]| |[] m' e']; try discriminate;
      try destruct s; reflexivity.
Qed.

(** With an infinite flight time and half the gravity rounded to zero,
    every sample of an upward launch is stored: the run never returns. *)
Lemma dragfree_never_returns fuel s m e :
  airResistance (data s) = false ->
  f_0_5 * gravity (data s) = S754_zero false ->
  totalTime_of (data s) = S754_infinity false ->
  launch_vy (data s) = S754_finite false m e ->
  value (calculateTrajectory fuel s) = None.
Proof.
  intros Hdrag Hg HT Hvy.
  rewrite (calculateTrajectory_analytical _ _ Hdrag), calculateAnalytical_value.
  apply analyticalLoop_diverges. intros n. cbn [data clear].
  pose proof (not_negative_time n F32.zero eq_refl) as Ht.
  unfold emitted. rewrite HT, (not_negative_le_infinity _ Ht), Hvy.
  rewrite (sample_without_weight _ _ m e _ Hg Ht). reflexivity.
Qed.

(** The flight time under a gravity of zero: infinite, with the sign of
    the zero. *)
Lemma totalTime_zero_gravity (sg : bool) m e :
  bounded 24 128 m e = true ->
  F32.div (f_2 * S754_finite false m e) (S754_zero sg) = S754_infinity sg.
Proof.
  intros Hvalid. rewrite f_2_bits.
  pose proof (double_positive m e Hvalid) as Hd. unfold F32.mul, F32.div.
  change F32.prec with 24%Z. change F32.emax with 128%Z.
  destruct (SFmul 24 128 _ _) as [s0|[]| |[] m' e']; try contradiction;
    destruct sg; reflexivity.
Qed.

(** X4: without drag, under a gravity of zero, for a launch whose vy is a
    positive number.  With the gravity +0 the flight time is +∞, every
    sample is stored and the run never returns.  With the gravity −0, a
    zero as well, the flight time is −∞ and the run returns at once, with
    no point stored. *)
Theorem dragfree_under_zero_gravity (fuel : nat) (s : ProjectileSimulator) :
  airResistance (data s) = false ->
  F32.valid (launch_vy (data s)) = true ->
  F32.is_finite (launch_vy (data s)) = true ->
  (launch_vy (data s) >? F32.zero) = true ->
  (gravity (data s) = S754_zero false ->
     value (calculateTrajectory fuel s) = None) /\
  (gravity (data s) = S754_zero true -> (1 <= fuel)%nat ->
     value (calculateTrajectory fuel s)
     = Some {| data := data s; trajectoryPoints := [] |}).
Proof.
  intros Hdrag Hvalid Hfin Hpos.
  destruct (positive_finite _ Hfin Hpos) as (m & e & Hvy).
  rewrite Hvy in Hvalid. cbn [F32.valid valid_binary] in Hvalid.
  split.
  - intros Hg. apply (dragfree_never_returns fuel s m e Hdrag).
    + rewrite Hg. reflexivity.
    + unfold totalTime_of. rewrite Hg, Hvy. exact (totalTime_zero_gravity false m e Hvalid).
    + exact Hvy.
  - intros Hg Hfuel.
    assert (Hstop : stops_at (data s) 0 = true).
    { apply stops_at_split. cbn [times time_after forallb]. unfold emitted.
      fold (totalTime_of (data s)).
      assert (HT : totalTime_of (data s) = S754_infinity true).
      { unfold totalTime_of. rewrite Hg, Hvy.
        exact (totalTime_zero_gravity true m e Hvalid). }
      rewrite HT. split; reflexivity. }
    rewrite (dragfree_stops fuel s 0 Hdrag Hstop) by lia. reflexivity.
Qed.

End ZeroGravity.


(** ** What each path divides by *)

Section DivisionSites.
Context {libm : Libm}.
Local Open Scope f32_scope.

Lemma numericalBody_sites d dt st :
  Forall (drag_divisor d) (divisions (numericalBody d dt st)).
Proof.
  unfold numericalBody. destruct st as [x0 y0 vx0 vy0].
  set (speed := F32.of_F64 _).
  destruct (speed >? f_0_001); cbn.
  - repeat (constructor; [unfold drag_divisor; cbn; auto|]). constructor.
  - constructor.
Qed.

Lemma numericalLoop_sites fuel dt : forall st s,
  Forall (drag_divisor (data s)) (divisions (numericalLoop fuel dt st s)).
Proof.
  induction fuel as [|fuel IH]; intros st s.
  - constructor.
  - rewrite numericalLoop_divisions_S.
    destruct (l_y st >=? F32.zero); [|constructor].
    cbv zeta. apply Forall_app. split; [apply numericalBody_sites|].
    destruct (10000 <? size _)%Z; [constructor|].
    exact (IH _ (push_back (position st) s)).
Qed.

(** X5: without drag a run divides exactly twice, by 180 and by the
    gravity, however many samples it stores; with drag it divides by 180
    once and after that only by the mass and by the speed, never by the
    gravity. *)
Theorem divisions_of_each_path (fuel : nat) (s : ProjectileSimulator) :
  (airResistance (data s) = false ->
   divisions (calculateTrajectory fuel s) =
     [mkDiv by180 (angle (data s) * PI) f_180;
      mkDiv byGravity (f_2 * launch_vy (data s)) (gravity (data s))]) /\
  (airResistance (data s) = true ->
   exists rest,
     divisions (calculateTrajectory fuel s) =
       mkDiv by180 (angle (data s) * PI) f_180 :: rest /\
     Forall (fun e => (site e = byMass /\ denominator e = mass (data s))
                      \/ site e = bySpeed) rest).
Proof.
  split; intros Hdrag.
  - rewrite (calculateTrajectory_analytical _ _ Hdrag). reflexivity.
  - rewrite (calculateTrajectory_numerical _ _ Hdrag), calculateNumerical_divisions.
    eexists. split; [reflexivity|].
    exact (numericalLoop_sites fuel f_0_01 _ (clear s)).
Qed.

End DivisionSites.

(** * The consumers of the engine *)

(** ** Writing into the canvas *)

Section CanvasLemmas.

Lemma replace_nth_length {A} (l : list A) : forall n a,
  length (replace_nth n a l) = length l.
Proof.
  induction l as [|h t IH]; intros [|n] a; cbn; auto.
Qed.

Lemma replace_nth_Forall {A} (P : A -> Prop) (l : list A) : forall n a,
  P a -> Forall P l -> Forall P (replace_nth n a l).
Proof.
  induction l as [|h t IH]; intros [|n] a Ha Hl; cbn; auto;
    inversion Hl; subst; constructor; auto.
Qed.

Lemma replace_nth_same {A} (l : list A) : forall n a,
  (n < length l)%nat -> nth_error (replace_nth n a l) n = Some a.
Proof.
  induction l as [|h t IH]; intros [|n] a Hn; cbn in *; try lia; auto.
  apply IH. lia.
Qed.

Lemma replace_nth_other {A} (l : list A) : forall n k a,
  n <> k -> nth_error (replace_nth n a l) k = nth_error l k.
Proof.
  induction l as [|h t IH]; intros [|n] [|k] a Hnk; cbn; auto; try congruence.
Qed.

Lemma replace_nth_firstn {A} (l : list A) : forall k n a,
  firstn k (replace_nth n a l) = replace_nth n a (firstn k l).
Proof.
  induction l as [|h t IH]; intros [|k] [|n] a; cbn; auto.
  f_equal. apply IH.
Qed.

Lemma Forall_firstn_nth {A} (P : A -> Prop) (l : list A) (d : A) : forall k n,
  (n < k)%nat -> (n < length l)%nat -> Forall P (firstn k l) -> P (nth n l d).
Proof.
  induction l as [|h t IH]; intros [|k] [|n] Hk Hn H; cbn in *; try lia;
    inversion H; subst; auto.
  apply (IH k); auto; lia.
Qed.

Lemma Forall_repeat {A} (P : A -> Prop) (a : A) n : P a -> Forall P (repeat a n).
Proof. intros Ha. induction n; cbn; constructor; auto. Qed.

Lemma initial_canvas :
  drawGround blankCanvas = repeat (repeat Blank 80) 24 ++ [repeat Ground 80].
Proof. vm_compute. reflexivity. Qed.

Lemma initial_canvas_ok : canvas_ok (drawGround blankCanvas).
Proof.
  rewrite initial_canvas. split; [reflexivity|]. split; [|split].
  - apply Forall_app. split.
    + apply Forall_repeat. apply repeat_length.
    + constructor; [apply repeat_length|constructor].
  - change (firstn 24 (repeat (repeat Blank 80) 24 ++ [repeat Ground 80]))
      with (repeat (repeat Blank 80) 24).
    apply Forall_repeat. apply Forall_repeat. left. reflexivity.
  - reflexivity.
Qed.

(** A mark above the ground keeps the canvas in shape. *)
Lemma put_ok cv row col c :
  canvas_ok cv -> (0 <= row < 24)%Z -> plot_cell c -> canvas_ok (put cv row col c).
Proof.
  intros (Hlen & Hrows & Hup & Hground) Hrow Hc. unfold put.
  assert (Hr : (Z.to_nat row < 24)%nat) by lia.
  set (r := Z.to_nat row) in *.
  split; [|split; [|split]].
  - rewrite replace_nth_length. exact Hlen.
  - apply replace_nth_Forall; [|exact Hrows].
    rewrite replace_nth_length.
    rewrite Forall_forall in Hrows. apply Hrows. apply nth_In. lia.
  - rewrite replace_nth_firstn. apply replace_nth_Forall; [|exact Hup].
    apply replace_nth_Forall; [exact Hc|].
    apply (Forall_firstn_nth _ _ _ 24%nat); auto; lia.
  - rewrite replace_nth_other by lia. exact Hground.
Qed.

Lemma put_cell cv row col c :
  canvas_ok cv -> (0 <= row < 25)%Z -> (0 <= col < 80)%Z ->
  cell (put cv row col c) row col = Some c.
Proof.
  intros (Hlen & Hrows & _) Hrow Hcol. unfold cell, put.
  rewrite replace_nth_same by lia.
  apply replace_nth_same.
  rewrite Forall_forall in Hrows. rewrite (Hrows (nth (Z.to_nat row) cv [])).
  - lia.
  - apply nth_In. lia.
Qed.

(** The cells of a canvas in shape. *)
Lemma canvas_ok_cell cv row col c :
  canvas_ok cv -> (0 <= row)%Z -> cell cv row col = Some c ->
  ((row < 24)%Z /\ plot_cell c) \/ (row = 24%Z /\ c = Ground).
Proof.
  intros (Hlen & Hrows & Hup & Hground) Hrow Hcell. unfold cell in Hcell.
  destruct (nth_error cv (Z.to_nat row)) as [r|] eqn:Hr; [|discriminate].
  assert (Hlt : (Z.to_nat row < 25)%nat).
  { rewrite <- Hlen. apply nth_error_Some. congruence. }
  destruct (Z.eq_dec row 24) as [->|Hne].
  - right. split; [reflexivity|].
    change (Z.to_nat 24) with 24%nat in Hr. rewrite Hground in Hr.
    injection Hr as <-. apply nth_error_In in Hcell.
    exact (repeat_spec 80 Ground c Hcell).
  - left. split; [lia|].
    assert (Hr' : nth (Z.to_nat row) cv [] = r) by (apply nth_error_nth; exact Hr).
    pose proof (Forall_firstn_nth _ cv [] 24%nat (Z.to_nat row)
                  ltac:(lia) ltac:(lia) Hup) as Hcells.
    cbv beta in Hcells. rewrite Hr' in Hcells.
    rewrite Forall_forall in Hcells. apply Hcells.
    apply nth_error_In in Hcell. exact Hcell.
Qed.

Lemma plotPoint_ok maxX maxY cv point cv' :
  canvas_ok cv -> plotPoint maxX maxY cv point = Some cv' -> canvas_ok cv'.
Proof.
  intros Hok. unfold plotPoint, obind.
  destruct (float_to_int _) as [xi|]; [|discriminate].
  destruct (float_to_int _) as [q|]; [|discriminate].
  destruct (int_sub _ q) as [yi|]; [|discriminate].
  destruct ((xi >=? 0)%Z && (xi <? WIDTH)%Z && (yi >=? 0)%Z && (yi <? HEIGHT - 1)%Z)
    eqn:Hin.
  - unfold store. repeat rewrite andb_true_iff in Hin.
    destruct Hin as [[[Hx0 Hx1] Hy0] Hy1].
    unfold WIDTH, HEIGHT in *. 
    apply Z.geb_le in Hx0, Hy0. apply Z.ltb_lt in Hx1, Hy1.
    destruct ((0 <=? yi)%Z && (yi <? 25)%Z && (0 <=? xi)%Z && (xi <? 80)%Z);
      [|discriminate].
    intros H. injection H as <-.
    apply put_ok; [exact Hok|lia|right; left; reflexivity].
  - intros H. injection H as <-. exact Hok.
Qed.

Lemma plotPoints_ok maxX maxY pts : forall cv cv',
  canvas_ok cv -> plotPoints maxX maxY cv pts = Some cv' -> canvas_ok cv'.
Proof.
  induction pts as [|p pts IH]; intros cv cv' Hok H; cbn [plotPoints] in H.
  - injection H as <-. exact Hok.
  - unfold obind in H. destruct (plotPoint maxX maxY cv p) as [cv1|] eqn:H1;
      [|discriminate].
    apply (IH cv1); [|exact H]. exact (plotPoint_ok _ _ _ _ _ Hok H1).
Qed.

(** Every point of a plot that is defined was converted without fault. *)
Lemma plotPoints_each maxX maxY pts : forall cv cv',
  plotPoints maxX maxY cv pts = Some cv' ->
  forall p, In p pts ->
  exists q,
    float_to_int (F32.mul (F32.div (y p) maxY) (int_to_float (HEIGHT - 2))) = Some q.
Proof.
  induction pts as [|p0 pts IH]; intros cv cv' H p Hin; [destruct Hin|].
  cbn [plotPoints] in H. unfold obind in H.
  destruct (plotPoint maxX maxY cv p0) as [cv1|] eqn:H1; [|discriminate].
  destruct Hin as [<-|Hin]; [|exact (IH _ _ H p Hin)].
  unfold plotPoint, obind in H1.
  destruct (float_to_int _) as [xi|]; [|discriminate].
  destruct (float_to_int _) as [q|]; [|discriminate].
  exists q. reflexivity.
Qed.

End CanvasLemmas.

(** ** [visualizeTrajectory] *)

Section Visualize.
Local Open Scope Z_scope.

Lemma div_eucl_shift m :
  Z.div_eucl (Z.shiftl (Zpos m) 24) (Zpos m) = (16777216, 0).
Proof.
  rewrite Z.shiftl_mul_pow2 by lia.
  pose proof (Z.div_eucl_eq (Z.pos m * 2 ^ 24) (Z.pos m) ltac:(lia)) as H.
  pose proof (Z.mod_pos_bound (Z.pos m * 2 ^ 24) (Z.pos m) ltac:(lia)) as Hb.
  unfold Z.modulo in Hb.
  destruct (Z.div_eucl (Z.pos m * 2 ^ 24) (Z.pos m)) as [q r].
  change (2 ^ 24) with 16777216 in *.
  assert (q = 16777216) by nia. subst q. f_equal. lia.
Qed.

(** A number divided by itself is exactly one. *)
Lemma div_self s m e :
  F32.div (S754_finite s m e) (S754_finite s m e) = S754_finite false 8388608 (-23).
Proof.
  unfold F32.div, SFdiv, SFdiv_core_binary, fexp, emin, F32.prec, F32.emax.
  replace (Zdigits2 (Z.pos m) + e - (Zdigits2 (Z.pos m) + e)) with 0 by lia.
  rewrite Z.sub_diag.
  change (Z.min (Z.max (0 - 24) (3 - 128 - 24)) 0) with (-24).
  change (0 - -24) with 24. cbv iota.
  rewrite div_eucl_shift.
  unfold new_location, new_location_even, new_location_odd.
  destruct (Z.even (Z.pos m)), s; reflexivity.
Qed.

Lemma last_column_bits : int_to_float (WIDTH - 1) = S754_finite false 10354688 (-17).
Proof. reflexivity. Qed.

Lemma last_row_bits : int_to_float (HEIGHT - 2) = S754_finite false 12058624 (-19).
Proof. reflexivity. Qed.

(** The column of the landing mark: 79 for a range that is a non-zero
    number, undefined otherwise. *)
Lemma landing_column r :
  float_to_int (F32.mul (F32.div r r) (int_to_float (WIDTH - 1))) =
  match r with
  | S754_finite _ _ _ => Some 79
  | _ => None
  end.
Proof.
  rewrite last_column_bits. destruct r as [s|s| |s m e].
  - destruct s; reflexivity.
  - destruct s; reflexivity.
  - reflexivity.
  - rewrite div_self. reflexivity.
Qed.

Lemma over_zero_undefined a z :
  F32.is_zero z = true ->
  float_to_int (F32.mul (F32.div a z) (int_to_float (HEIGHT - 2))) = None.
Proof.
  rewrite last_row_bits.
  destruct z as [sz|sz| |sz mz ez]; try discriminate; intros _.
  destruct a as [s|s| |s m e]; cbn; try reflexivity;
    destruct s, sz; reflexivity.
Qed.

Lemma infinity_over_infinity_undefined :
  float_to_int (F32.mul (F32.div (S754_infinity false) (S754_infinity false))
                        (int_to_float (HEIGHT - 2))) = None.
Proof. reflexivity. Qed.

(** A plot that is defined: the points were plotted, the start mark was
    put, the landing column was 79 and nothing was put there. *)
Lemma visualize_defined s p :
  visualizeTrajectory s = Some p ->
  exists cv,
    plotPoints (getRange s) (getMaxHeight s) (drawGround blankCanvas)
               (trajectoryPoints s) = Some cv /\
    p = mkPlot (put cv 23 0 Start) (getRange s) (getMaxHeight s) /\
    (exists sg m e, getRange s = S754_finite sg m e).
Proof.
  unfold visualizeTrajectory. cbv zeta. unfold obind at 1.
  destruct (plotPoints _ _ _ _) as [cv|]; [|discriminate].
  change (store cv (HEIGHT - 2) 0 Start) with (Some (put cv 23 0 Start)).
  unfold obind at 1. unfold obind at 1. rewrite landing_column.
  destruct (getRange s) as [sg|sg| |sg m e]; try discriminate.
  cbn. intros H. injection H as <-.
  exists cv. split; [reflexivity|]. split; [reflexivity|]. eauto.
Qed.

Lemma cell_row_nonneg cv row col : cell cv row col = cell cv (Z.max 0 row) col.
Proof. unfold cell. replace (Z.to_nat (Z.max 0 row)) with (Z.to_nat row) by lia. reflexivity. Qed.

(** X6: when the plot is defined, the canvas has 25 rows of 80 cells, its
    last row is the ground, the start mark is in the first column of the
    row above it, and the scale line shows the range and the maximum
    height. *)
Theorem plot_canvas_shape (s : ProjectileSimulator) (p : Plot) :
  visualizeTrajectory s = Some p ->
  length (canvas p) = 25%nat /\
  Forall (fun r => length r = 80%nat) (canvas p) /\
  nth_error (canvas p) 24 = Some (repeat Ground 80) /\
  cell (canvas p) 23 0 = Some Start /\
  scaleX p = getRange s /\ scaleY p = getMaxHeight s.
Proof.
  intros H. destruct (visualize_defined s p H) as (cv & Hplot & -> & _).
  pose proof (plotPoints_ok _ _ _ _ _ initial_canvas_ok Hplot) as Hok.
  assert (Hfinal : canvas_ok (put cv 23 0 Start))
    by (apply put_ok; [exact Hok|lia|right; right; reflexivity]).
  destruct Hfinal as (Hlen & Hrows & _ & Hground). cbn [canvas scaleX scaleY].
  repeat split; try assumption.
  apply put_cell; [exact Hok|lia|lia].
Qed.

(** X7: the landing mark is never drawn.  In a plot that is defined the
    column computed for it is 79, which the test [endX < WIDTH - 1]
    refuses; no cell of the canvas holds the mark, and the ground is on
    the last row only. *)
Theorem plot_has_no_landing_mark (s : ProjectileSimulator) (p : Plot) :
  visualizeTrajectory s = Some p ->
  float_to_int (F32.mul (F32.div (getRange s) (getRange s))
                        (int_to_float (WIDTH - 1))) = Some 79 /\
  (forall row col, cell (canvas p) row col <> Some Landing) /\
  (forall row col, 0 <= row -> cell (canvas p) row col = Some Ground -> row = 24).
Proof.
  intros H. destruct (visualize_defined s p H) as (cv & Hplot & -> & (sg & m & e & Hr)).
  pose proof (plotPoints_ok _ _ _ _ _ initial_canvas_ok Hplot) as Hok.
  assert (Hfinal : canvas_ok (put cv 23 0 Start))
    by (apply put_ok; [exact Hok|lia|right; right; reflexivity]).
  cbn [canvas]. split; [|split].
  - rewrite landing_column, Hr. reflexivity.
  - intros row col Hcell. rewrite cell_row_nonneg in Hcell.
    destruct (canvas_ok_cell _ (Z.max 0 row) col _ Hfinal (Z.le_max_l 0 row) Hcell)
      as [[_ [Hc|[Hc|Hc]]]|[_ Hc]]; discriminate.
  - intros row col Hrow Hcell.
    destruct (canvas_ok_cell _ _ _ _ Hfinal Hrow Hcell)
      as [[_ [Hc|[Hc|Hc]]]|[Hc _]]; try discriminate. exact Hc.
Qed.

(** X8: the plot is defined only for a trajectory with an extent: it is
    undefined (a conversion to [int] of a NaN or of an infinity) unless
    points are stored, the range is a non-zero number and the maximum
    height is a positive number. *)
Theorem plot_defined_only_with_extent (s : ProjectileSimulator) (p : Plot) :
  visualizeTrajectory s = Some p ->
  trajectoryPoints s <> [] /\
  F32.is_finite (getRange s) = true /\ F32.is_zero (getRange s) = false /\
  F32.is_finite (getMaxHeight s) = true /\
  F32.gtb (getMaxHeight s) F32.zero = true.
Proof.
  intros H. destruct (visualize_defined s p H) as (cv & Hplot & _ & (sg & m & e & Hr)).
  assert (Hne : trajectoryPoints s <> []).
  { intros E. unfold getRange in Hr. rewrite E in Hr. discriminate. }
  split; [exact Hne|]. rewrite Hr. split; [reflexivity|]. split; [reflexivity|].
  pose proof (fold_higher_not_nan (trajectoryPoints s) F32.zero eq_refl) as Hnan.
  destruct (fold_higher_bound (trajectoryPoints s) F32.zero eq_refl) as [Hlow _].
  pose proof (plotPoints_each _ _ _ _ _ Hplot) as Heach.
  rewrite getMaxHeight_fold in *.
  destruct (fold_left higher (trajectoryPoints s) F32.zero)
    as [sz|[]| |[] mh eh] eqn:EM; try discriminate.
  - (* a maximum height of zero: the first point cannot be converted *)
    destruct (trajectoryPoints s) as [|p0 rest]; [congruence|].
    destruct (Heach p0 (or_introl eq_refl)) as [q Hq].
    rewrite over_zero_undefined in Hq by reflexivity. discriminate.
  - (* an infinite one: the point that reaches it cannot be converted *)
    destruct (fold_higher_attained (trajectoryPoints s) F32.zero)
      as [E|(q0 & Hin & E)]; rewrite EM in E; [discriminate|].
    destruct (Heach q0 Hin) as [q Hq]. rewrite <- E in Hq.
    rewrite infinity_over_infinity_undefined in Hq. discriminate.
  - split; reflexivity.
Qed.

End Visualize.

(** ** [showTrajectoryData] *)

Section ShowData.

Lemma dataRows_spec fuel pts dt step : forall i,
  (1 <= step)%nat -> (1 <= fuel)%nat -> (length pts < fuel + i)%nat ->
  exists rows,
    dataRows fuel pts dt step i = Some rows /\
    (forall j row, nth_error rows j = Some row ->
       exists point, nth_error pts (i + j * step) = Some point /\
         row = mkRow (F32.mul (F32.of_nat (i + j * step)) dt) (x point) (y point)) /\
    ((length pts <= i)%nat -> rows = []) /\
    ((i < length pts)%nat ->
       exists k, length rows = S k /\
         (i + k * step < length pts)%nat /\ (length pts <= i + S k * step)%nat).
Proof.
  induction fuel as [|fuel IH]; intros i Hstep Hone Hfuel; [lia|].
  - cbn [dataRows]. destruct (Nat.ltb_spec i (length pts)) as [Hi|Hi].
    + destruct (nth_error pts i) as [point|] eqn:Hp;
        [|apply nth_error_None in Hp; lia].
      destruct (IH (i + step)%nat Hstep ltac:(lia) ltac:(lia))
        as (rest & Hrest & Hrows & Hnil & Hlen).
      unfold obind. rewrite Hrest. eexists. split; [reflexivity|].
      split; [|split; [lia|]].
      * intros [|j] row Hj; cbn in Hj.
        -- injection Hj as <-. exists point.
           rewrite Nat.add_0_r. split; [exact Hp|reflexivity].
        -- destruct (Hrows j row Hj) as (q & Hq & ->).
           replace (i + S j * step)%nat with (i + step + j * step)%nat by lia.
           exists q. split; [exact Hq|reflexivity].
      * intros _. destruct (Nat.lt_ge_cases (i + step) (length pts)) as [Hmore|Hlast].
        -- destruct (Hlen Hmore) as (k & Hk & Hlo & Hhi).
           exists (S k). cbn [length]. rewrite Hk. split; [reflexivity|].
           cbn [Nat.mul] in *. lia.
        -- rewrite (Hnil Hlast). exists O. cbn. split; [reflexivity|lia].
    + eexists. split; [reflexivity|]. split; [|split; [reflexivity|lia]].
      intros [|j] row Hj; discriminate.
Qed.

(** X9: the listing of the trajectory returns; line number j is stored
    point number j·step with its time (j·step)·dt, where step is a tenth
    of the number of points (at least 1) and dt the step of the path.
    Fewer than 10 points are all listed; from 10 points on, between 10 and
    19 lines are listed; no point outside the vector is read. *)
Theorem data_listing (fuel : nat) (s : ProjectileSimulator) :
  (length (trajectoryPoints s) < fuel)%nat ->
  exists rows,
    showTrajectoryData fuel s = Some rows /\
    (forall j row, nth_error rows j = Some row ->
       exists point,
         nth_error (trajectoryPoints s) (j * dataStep s) = Some point /\
         row = mkRow (F32.mul (F32.of_nat (j * dataStep s))
                              (timeStep (airResistance (data s))))
                     (x point) (y point)) /\
    ((length (trajectoryPoints s) < 10)%nat ->
       length rows = length (trajectoryPoints s)) /\
    ((10 <= length (trajectoryPoints s))%nat ->
       (10 <= length rows <= 19)%nat).
Proof.
  intros Hfuel. unfold showTrajectoryData. cbv zeta.
  fold (dataStep s).
  assert (Hstep : (1 <= dataStep s)%nat).
  { unfold dataStep. destruct (Nat.eqb_spec (length (trajectoryPoints s) / 10) 0); lia. }
  destruct (dataRows_spec fuel (trajectoryPoints s)
              (if airResistance (data s) then f_0_01 else f_0_02)
              (dataStep s) 0 Hstep ltac:(lia) ltac:(lia))
    as (rows & Hrows & Heach & Hnil & Hlen).
  exists rows. split; [exact Hrows|]. split; [|split].
  - intros j row Hj. destruct (Heach j row Hj) as (point & Hp & ->).
    exists point. split; [exact Hp|].
    unfold timeStep. destruct (airResistance (data s)); reflexivity.
  - intros Hsmall.
    destruct (length (trajectoryPoints s)) as [|n] eqn:En.
    + rewrite Hnil by lia. reflexivity.
    + destruct (Hlen ltac:(lia)) as (k & Hk & Hlo & Hhi).
      assert (Hs : dataStep s = 1%nat).
      { unfold dataStep. rewrite En. rewrite Nat.div_small by lia. reflexivity. }
      rewrite Hs in *. lia.
  - intros Hbig.
    destruct (Hlen ltac:(lia)) as (k & Hk & Hlo & Hhi).
    pose proof (Nat.div_mod_eq (length (trajectoryPoints s)) 10) as Hdm.
    pose proof (Nat.mod_upper_bound (length (trajectoryPoints s)) 10 ltac:(lia)) as Hm.
    assert (Hs : dataStep s = (length (trajectoryPoints s) / 10)%nat).
    { unfold dataStep.
      destruct (Nat.eqb_spec (length (trajectoryPoints s) / 10) 0); [lia|reflexivity]. }
    rewrite Hs in *. rewrite Hk. cbn [Nat.mul] in Hhi. nia.
Qed.

End ShowData.

(** ** [compareAngles] *)

Section CompareAngles.
Context {libm : Libm}.
Local Open Scope f32_scope.

Lemma above_not_below b r :
  F32.is_nan b = false -> (b <? F32.zero) = false -> (b <? r) = true ->
  (F32.zero <? r) = true.
Proof.
  intros Hnan Hb Hr. destruct (F32.zero <? r) eqn:H0; [reflexivity|].
  rewrite (ltb_neg_trans b F32.zero r eq_refl Hb H0) in Hr. discriminate.
Qed.

Lemma compareAnglesLoop_spec n fuel velocity : forall angle acc scan,
  F32.is_nan (bestRange acc) = false ->
  (bestRange acc <? F32.zero) = false ->
  compareAnglesLoop n fuel velocity angle acc = Some scan ->
  exists rows,
    table scan = table acc ++ rows /\
    map a_angle rows = anglesFrom n angle /\
    Forall (row_of_run fuel velocity) rows /\
    F32.is_nan (bestRange scan) = false /\
    (bestRange scan <? bestRange acc) = false /\
    Forall (fun row => (bestRange scan <? a_range row) = false) rows /\
    ((bestAngle scan = bestAngle acc /\ bestRange scan = bestRange acc) \/
     exists row, In row rows /\
       bestAngle scan = int_to_float (a_angle row) /\
       bestRange scan = a_range row /\ (F32.zero <? a_range row) = true).
Proof.
  induction n as [|n IH]; intros angle acc scan Hnan Hlow H; [discriminate|].
  cbn [compareAnglesLoop anglesFrom] in *.
  destruct (angle <=? 75)%Z.
  - unfold obind in H.
    destruct (value (calculateTrajectory fuel _)) as [sim|] eqn:Hsim; [|discriminate].
    cbv zeta in H.
    assert (Hrow : row_of_run fuel velocity
                     (mkAngleRow angle (getRange sim) (getMaxHeight sim)))
      by (exists sim; cbn; auto).
    set (row := mkAngleRow angle (getRange sim) (getMaxHeight sim)) in *.
    unfold F32.gtb in H. fold (bestRange acc <? getRange sim) in H.
    destruct (bestRange acc <? getRange sim) eqn:Hc; cbn [table bestAngle bestRange] in H.
    + (* the line sets a new best *)
      destruct (ltb_not_nan _ _ Hc) as [_ Hn].
      assert (Hz : (getRange sim <? F32.zero) = false).
      { destruct (getRange sim <? F32.zero) eqn:E; [|reflexivity].
        rewrite (ltb_trans _ _ _ Hc E) in Hlow. discriminate. }
      apply IH in H; cbn [bestRange]; [|exact Hn|exact Hz].
      destruct H as (rows & Ht & Ha & Hruns & Hnan' & Hge & Hub & Hbest).
      cbn [table bestAngle bestRange] in *.
      exists (row :: rows). rewrite Ht, <- app_assoc. split; [reflexivity|].
      split; [cbn; rewrite Ha; reflexivity|]. split; [constructor; assumption|].
      split; [exact Hnan'|]. split; [|split].
      * destruct (bestRange scan <? bestRange acc) eqn:E; [|reflexivity].
        rewrite (ltb_trans _ _ _ E Hc) in Hge. discriminate.
      * constructor; [exact Hge|exact Hub].
      * right. destruct Hbest as [[Hba Hbr]|(r & Hin & Hba & Hbr & Hpos)].
        -- exists row. split; [left; reflexivity|]. split; [exact Hba|].
           split; [exact Hbr|]. exact (above_not_below _ _ Hnan Hlow Hc).
        -- exists r. split; [right; exact Hin|]. auto.
    + (* the best so far stays *)
      assert (Hacc : {| table := table acc ++ [row]; bestAngle := bestAngle acc;
                        bestRange := bestRange acc |}
                     = mkScan (table acc ++ [row]) (bestAngle acc) (bestRange acc))
        by reflexivity.
      apply IH in H; cbn [bestRange]; [|exact Hnan|exact Hlow].
      destruct H as (rows & Ht & Ha & Hruns & Hnan' & Hge & Hub & Hbest).
      cbn [table bestAngle bestRange] in *.
      exists (row :: rows). rewrite Ht, <- app_assoc. split; [reflexivity|].
      split; [cbn; rewrite Ha; reflexivity|]. split; [constructor; assumption|].
      split; [exact Hnan'|]. split; [exact Hge|]. split.
      * constructor; [|exact Hub]. cbn [a_range row].
        exact (ltb_neg_trans _ _ _ Hnan Hge Hc).
      * destruct Hbest as [[Hba Hbr]|(r & Hin & Hba & Hbr & Hpos)].
        -- left. split; assumption.
        -- right. exists r. split; [right; exact Hin|]. auto.
  - injection H as <-. exists []. rewrite app_nil_r.
    split; [reflexivity|]. split; [reflexivity|]. split; [constructor|].
    split; [exact Hnan|]. split; [apply ltb_irrefl|]. split; [constructor|].
    left. split; reflexivity.
Qed.

(** The scan returns as soon as each of its runs does. *)
Lemma compareAnglesLoop_returns n fuel velocity : forall angle acc,
  (forall a, In a (anglesFrom n angle) ->
     exists sim, value (calculateTrajectory fuel
                          (ProjectileSimulator_new (angleData velocity a))) = Some sim) ->
  (1 <= n)%nat -> (75 < angle + 5 * (Z.of_nat n - 1))%Z ->
  exists scan, compareAnglesLoop n fuel velocity angle acc = Some scan.
Proof.
  induction n as [|n IH]; intros angle acc Hruns Hone Hn; [lia|].
  cbn [compareAnglesLoop anglesFrom] in *.
  destruct (Z.leb_spec angle 75) as [Hle|Hgt]; [|eauto].
  destruct (Hruns angle (or_introl eq_refl)) as [sim Hsim].
  unfold obind. rewrite Hsim. cbv zeta.
  apply IH; [|lia|lia]. intros a Ha. apply Hruns. right. exact Ha.
Qed.

Lemma compareAngles_unfold fuel velocity :
  compareAngles fuel velocity =
  compareAnglesLoop 14 fuel velocity 15 (mkScan [] F32.zero F32.zero).
Proof. reflexivity. Qed.

(** X10: the scan of the angles lists the thirteen angles 15, 20, ..., 75
    in this order, each with the range and the maximum height of its
    drag-free run, and it returns as soon as these runs do.  The best range
    it reports is below no listed range, and it is the range of a listed
    line with that angle and a range above zero; when no line has a range
    above zero it reports the angle 0 with a range of 0, an angle that was
    not scanned. *)
Theorem angle_scan (fuel : nat) (velocity : float) :
  ((forall a, In a [15; 20; 25; 30; 35; 40; 45; 50; 55; 60; 65; 70; 75]%Z ->
      exists sim, value (calculateTrajectory fuel
                           (ProjectileSimulator_new (angleData velocity a))) = Some sim) ->
   exists scan, compareAngles fuel velocity = Some scan) /\
  (forall scan, compareAngles fuel velocity = Some scan ->
     map a_angle (table scan) = [15; 20; 25; 30; 35; 40; 45; 50; 55; 60; 65; 70; 75]%Z /\
     Forall (row_of_run fuel velocity) (table scan) /\
     Forall (fun row => (bestRange scan <? a_range row) = false) (table scan) /\
     ((bestAngle scan = F32.zero /\ bestRange scan = F32.zero /\
       Forall (fun row => (F32.zero <? a_range row) = false) (table scan)) \/
      exists row, In row (table scan) /\
        bestAngle scan = int_to_float (a_angle row) /\
        bestRange scan = a_range row /\ (F32.zero <? a_range row) = true)).
Proof.
  split.
  - intros Hruns. rewrite compareAngles_unfold.
    apply compareAnglesLoop_returns; [exact Hruns|lia|reflexivity].
  - intros scan H. rewrite compareAngles_unfold in H.
    destruct (compareAnglesLoop_spec 14 fuel velocity 15
                (mkScan [] F32.zero F32.zero) scan eq_refl eq_refl H)
      as (rows & Ht & Ha & Hruns & _ & _ & Hub & Hbest).
    change (table scan = rows) in Ht. rewrite Ht.
    split; [exact Ha|]. split; [exact Hruns|]. split; [exact Hub|].
    destruct Hbest as [[Hba Hbr]|Hrow]; [left|right; exact Hrow].
    change (bestAngle scan = F32.zero) in Hba.
    change (bestRange scan = F32.zero) in Hbr.
    split; [exact Hba|]. split; [exact Hbr|].
    eapply Forall_impl; [|exact Hub].
    intros row Hr. cbv beta in Hr. rewrite <- Hbr. exact Hr.
Qed.

End CompareAngles.

(** ** [compareAirResistance] *)

Section CompareAir.
Context {libm : Libm}.
Local Open Scope f32_scope.

Lemma hundred_bits : int_to_float 100 = S754_finite false 13107200 (-17).
Proof. reflexivity. Qed.

Lemma rangeLoss_zero_range r1 r2 :
  F32.is_zero r1 = true ->
  F32.is_finite (rangeLoss_of r1 r2) = false /\
  (F32.is_zero r2 = true -> rangeLoss_of r1 r2 = S754_nan).
Proof.
  unfold rangeLoss_of. rewrite hundred_bits.
  destruct r1 as [s1|s1| |s1 m1 e1]; try discriminate; intros _.
  destruct r2 as [s2|s2| |s2 m2 e2]; cbn; split; try discriminate; try reflexivity;
    destruct s1, s2; try discriminate; reflexivity.
Qed.

(** X11: the comparison reports, for both runs of the same launch, the
    metrics of the run without drag and of the run with drag.  When the
    range without drag is zero, the reduction it reports is not a number
    of percent: it is a NaN when the range with drag is zero as well, and
    an infinity or a NaN otherwise. *)
Theorem range_loss_of_zero_range (fuel : nat) (velocity angle : float) (c : Comparison) :
  compareAirResistance fuel velocity angle = Some c ->
  (exists sim1 sim2,
     value (calculateTrajectory fuel
              (ProjectileSimulator_new (airData velocity angle false))) = Some sim1 /\
     value (calculateTrajectory fuel
              (ProjectileSimulator_new (airData velocity angle true))) = Some sim2 /\
     range1 c = getRange sim1 /\ range2 c = getRange sim2 /\
     rangeLoss c = F32.div (range1 c - range2 c) (range1 c) * int_to_float 100) /\
  (F32.is_zero (range1 c) = true ->
     F32.is_finite (rangeLoss c) = false /\
     (F32.is_zero (range2 c) = true -> rangeLoss c = S754_nan)).
Proof.
  unfold compareAirResistance, obind. intros H.
  destruct (value (calculateTrajectory fuel _)) as [sim1|]; [|discriminate].
  destruct (value (calculateTrajectory fuel _)) as [sim2|]; [|discriminate].
  injection H as <-. cbn [range1 range2 rangeLoss]. split.
  - exists sim1, sim2. repeat split; reflexivity.
  - apply rangeLoss_zero_range.
Qed.

End CompareAir.

(** ** The plot of a computed trajectory *)

Section PlotOfRun.
Context {libm : Libm}.
Local Open Scope f32_scope.

Lemma times_zero_not_a_number (a : float) :
  match (a * F32.zero)%f32 with
  | S754_finite _ _ _ => False
  | _ => True
  end.
Proof. destruct a as [s|s| |s m e]; cbn; exact I. Qed.

(** X12: a run followed by the plot, as [runSimulation] chains them: the
    plot is defined only when the run has stored at least two points.  A
    trajectory of one point (a launch at 0° for instance) has a range of
    zero, or a NaN, and its plot is undefined. *)
Theorem plot_of_run_needs_two_points (fuel : nat) (s r : ProjectileSimulator) (p : Plot) :
  value (calculateTrajectory fuel s) = Some r ->
  visualizeTrajectory r = Some p ->
  (2 <= length (trajectoryPoints r))%nat.
Proof.
  intros Hrun Hplot.
  destruct (visualize_defined r p Hplot) as (_ & _ & _ & (sg & m & e & Hrange)).
  destruct (airResistance (data s)) eqn:Hdrag.
  - destruct (drag_first_point _ _ _ Hdrag Hrun) as [rest Hpts].
    unfold getRange in Hrange. rewrite Hpts in *.
    destruct rest as [|q rest]; [discriminate Hrange|]. cbn. lia.
  - destruct (dragfree_run _ _ _ Hdrag Hrun) as (n & _ & _ & ->).
    unfold getRange in Hrange. cbn [trajectoryPoints] in *.
    rewrite length_map, times_length.
    destruct n as [|[|n]]; [discriminate Hrange| |lia].
    cbn in Hrange.
    pose proof (times_zero_not_a_number (launch_vx (data s))) as Hx.
    fold F32.zero in Hrange. rewrite Hrange in Hx. contradiction.
Qed.

End PlotOfRun.

(** ** The further properties on the examples *)

Lemma calculateTrajectory_again_witness :
  value (calculateTrajectory (libm := libm_examples) 5
           (ProjectileSimulator_new flat_shot_drag))
    = Some (origin_only flat_shot_drag) /\
  calculateTrajectory (libm := libm_examples) 7 (origin_only flat_shot_drag)
    = calculateTrajectory (libm := libm_examples) 7
        (ProjectileSimulator_new flat_shot_drag).
Proof.
  split; [exact flat_shot_drag_run|].
  exact (calculateTrajectory_again (libm := libm_examples) 7 5
           (ProjectileSimulator_new flat_shot_drag) (origin_only flat_shot_drag)
           flat_shot_drag_run).
Defined.

Lemma flat_shot_drag_appended :
  value (calculateNumerical (libm := libm_examples) 5 (origin_only flat_shot_drag))
  = Some {| data := flat_shot_drag;
            trajectoryPoints := [mkVector2D F32.zero F32.zero;
                                 mkVector2D F32.zero F32.zero] |}.
Proof. vm_compute. reflexivity. Qed.

Lemma path_methods_append_witness :
  value (calculateNumerical (libm := libm_examples) 5 (origin_only flat_shot_drag))
    = Some {| data := flat_shot_drag;
              trajectoryPoints := [mkVector2D F32.zero F32.zero;
                                   mkVector2D F32.zero F32.zero] |} /\
  exists added,
    [mkVector2D F32.zero F32.zero; mkVector2D F32.zero F32.zero]
    = trajectoryPoints (origin_only flat_shot_drag)
      ++ mkVector2D F32.zero F32.zero :: added.
Proof.
  split; [exact flat_shot_drag_appended|].
  destruct (proj2 (path_methods_append (libm := libm_examples) 5
                     (origin_only flat_shot_drag) _) flat_shot_drag_appended)
    as (added & Hadded & _).
  exists added. exact Hadded.
Defined.

Lemma dragfree_under_zero_gravity_witness :
  (gravity weightless_shot = S754_zero false /\
   F32.gtb (launch_vy (libm := libm_examples) weightless_shot) F32.zero = true /\
   value (calculateTrajectory (libm := libm_examples) 1000
            (ProjectileSimulator_new weightless_shot)) = None) /\
  (gravity weightless_shot_minus = S754_zero true /\
   F32.gtb (launch_vy (libm := libm_examples) weightless_shot_minus) F32.zero = true /\
   value (calculateTrajectory (libm := libm_examples) 1000
            (ProjectileSimulator_new weightless_shot_minus))
   = Some {| data := weightless_shot_minus; trajectoryPoints := [] |}).
Proof.
  split.
  - split; [reflexivity|]. split; [vm_compute; reflexivity|].
    refine (proj1 (dragfree_under_zero_gravity (libm := libm_examples) 1000
                     (ProjectileSimulator_new weightless_shot) _ _ _ _) _).
    + reflexivity.
    + vm_compute; reflexivity.
    + vm_compute; reflexivity.
    + vm_compute; reflexivity.
    + reflexivity.
  - split; [reflexivity|]. split; [vm_compute; reflexivity|].
    refine (proj2 (dragfree_under_zero_gravity (libm := libm_examples) 1000
                     (ProjectileSimulator_new weightless_shot_minus) _ _ _ _) _ _).
    + reflexivity.
    + vm_compute; reflexivity.
    + vm_compute; reflexivity.
    + vm_compute; reflexivity.
    + reflexivity.
    + lia.
Defined.

Lemma arc_plot_defined :
  (match visualizeTrajectory arc_example with Some _ => true | None => false end)
  = true.
Proof. vm_compute. reflexivity. Qed.

Lemma plot_canvas_shape_witness :
  exists p,
    visualizeTrajectory arc_example = Some p /\
    length (canvas p) = 25%nat /\
    Forall (fun r => length r = 80%nat) (canvas p) /\
    nth_error (canvas p) 24 = Some (repeat Ground 80) /\
    cell (canvas p) 23 0 = Some Start /\
    scaleX p = getRange arc_example /\ scaleY p = getMaxHeight arc_example.
Proof.
  pose proof arc_plot_defined as D.
  destruct (visualizeTrajectory arc_example) as [p|] eqn:E; [|discriminate D].
  exists p. split; [reflexivity|]. exact (plot_canvas_shape arc_example p E).
Defined.

Lemma plot_has_no_landing_mark_witness :
  exists p,
    visualizeTrajectory arc_example = Some p /\
    float_to_int (F32.mul (F32.div (getRange arc_example) (getRange arc_example))
                          (int_to_float (WIDTH - 1))) = Some 79%Z /\
    (forall row col, cell (canvas p) row col <> Some Landing) /\
    (forall row col, (0 <= row)%Z -> cell (canvas p) row col = Some Ground ->
                     row = 24%Z).
Proof.
  pose proof arc_plot_defined as D.
  destruct (visualizeTrajectory arc_example) as [p|] eqn:E; [|discriminate D].
  exists p. split; [reflexivity|]. exact (plot_has_no_landing_mark arc_example p E).
Defined.

Lemma plot_defined_only_with_extent_witness :
  exists p,
    visualizeTrajectory arc_example = Some p /\
    trajectoryPoints arc_example <> [] /\
    F32.is_finite (getRange arc_example) = true /\
    F32.is_zero (getRange arc_example) = false /\
    F32.is_finite (getMaxHeight arc_example) = true /\
    F32.gtb (getMaxHeight arc_example) F32.zero = true.
Proof.
  pose proof arc_plot_defined as D.
  destruct (visualizeTrajectory arc_example) as [p|] eqn:E; [|discriminate D].
  exists p. split; [reflexivity|].
  exact (plot_defined_only_with_extent arc_example p E).
Defined.

(** The trajectory of a launch at 0°, a single point at the origin, has
    no plot. *)
Remark flat_shot_has_no_plot : visualizeTrajectory (origin_only flat_shot) = None.
Proof. vm_compute. reflexivity. Qed.

Lemma vertical_flight_size :
  Nat.ltb (length (trajectoryPoints vertical_flight)) 512 = true /\
  Nat.leb 10 (length (trajectoryPoints vertical_flight)) = true.
Proof. split; vm_compute; reflexivity. Qed.

Lemma data_listing_witness :
  (length (trajectoryPoints vertical_flight) < 512)%nat /\
  exists rows,
    showTrajectoryData 512 vertical_flight = Some rows /\
    (10 <= length rows <= 19)%nat.
Proof.
  assert (Hfuel : (length (trajectoryPoints vertical_flight) < 512)%nat)
    by (apply Nat.ltb_lt; exact (proj1 vertical_flight_size)).
  split; [exact Hfuel|].
  destruct (data_listing 512 vertical_flight Hfuel) as (rows & Hrows & _ & _ & Hbig).
  exists rows. split; [exact Hrows|].
  apply Hbig. apply Nat.leb_le. exact (proj2 vertical_flight_size).
Defined.

(** At 50 m/s the scan finds 45° with a range of 254.56 m. *)
Lemma scan_at_50 :
  option_map (fun scan => (bestAngle scan, bestRange scan))
    (compareAngles (libm := libm_scan) 600 (F32.lit 50 1))
  = Some (F32.lit 45 1, S754_finite false 16682728 (-16)).
Proof. vm_compute. reflexivity. Qed.

Lemma angle_scan_witness :
  exists scan,
    compareAngles (libm := libm_scan) 600 (F32.lit 50 1) = Some scan /\
    bestAngle scan = F32.lit 45 1 /\
    map a_angle (table scan) = [15; 20; 25; 30; 35; 40; 45; 50; 55; 60; 65; 70; 75]%Z /\
    Forall (fun row => F32.ltb (bestRange scan) (a_range row) = false) (table scan).
Proof.
  pose proof scan_at_50 as B.
  destruct (compareAngles (libm := libm_scan) 600 (F32.lit 50 1)) as [scan|] eqn:E;
    [|discriminate B].
  cbn [option_map] in B. injection B as Ba _.
  destruct (proj2 (angle_scan (libm := libm_scan) 600 (F32.lit 50 1)) scan E)
    as (Hangles & _ & Hub & _).
  exists scan. split; [reflexivity|]. split; [exact Ba|].
  split; [exact Hangles|exact Hub].
Defined.

(** At 0° both ranges are zero and the reported reduction is a NaN. *)
Lemma comparison_at_0 :
  option_map (fun c => (range1 c, range2 c))
    (compareAirResistance (libm := libm_examples) 5 (F32.lit 50 1) F32.zero)
  = Some (S754_zero false, S754_zero false).
Proof. vm_compute. reflexivity. Qed.

Lemma range_loss_of_zero_range_witness :
  exists c,
    compareAirResistance (libm := libm_examples) 5 (F32.lit 50 1) F32.zero = Some c /\
    F32.is_zero (range1 c) = true /\
    F32.is_finite (rangeLoss c) = false /\ rangeLoss c = S754_nan.
Proof.
  pose proof comparison_at_0 as B.
  destruct (compareAirResistance (libm := libm_examples) 5 (F32.lit 50 1) F32.zero)
    as [c|] eqn:E; [|discriminate B].
  cbn [option_map] in B. injection B as B1 B2.
  assert (Hz1 : F32.is_zero (range1 c) = true) by (rewrite B1; reflexivity).
  assert (Hz2 : F32.is_zero (range2 c) = true) by (rewrite B2; reflexivity).
  destruct (proj2 (range_loss_of_zero_range (libm := libm_examples) 5 (F32.lit 50 1)
                     F32.zero c E) Hz1) as [Hfin Hnan].
  exists c. split; [reflexivity|]. split; [exact Hz1|].
  split; [exact Hfin|exact (Hnan Hz2)].
Defined.

Lemma vertical_run :
  value (calculateTrajectory (libm := libm_examples) 512
           (ProjectileSimulator_new vertical_shot)) = Some vertical_flight.
Proof.
  apply (dragfree_stops (libm := libm_examples) 512
           (ProjectileSimulator_new vertical_shot) 511);
    [reflexivity|exact vertical_shot_stops|apply Nat.lt_succ_diag_r].
Qed.

Lemma vertical_plot_defined :
  (match visualizeTrajectory vertical_flight with Some _ => true | None => false end)
  = true.
Proof. vm_compute. reflexivity. Qed.

Lemma plot_of_run_needs_two_points_witness :
  exists p,
    value (calculateTrajectory (libm := libm_examples) 512
             (ProjectileSimulator_new vertical_shot)) = Some vertical_flight /\
    visualizeTrajectory vertical_flight = Some p /\
    (2 <= length (trajectoryPoints vertical_flight))%nat.
Proof.
  pose proof vertical_plot_defined as D.
  destruct (visualizeTrajectory vertical_flight) as [p|] eqn:E; [|discriminate D].
  exists p. split; [exact vertical_run|]. split; [reflexivity|].
  exact (plot_of_run_needs_two_points (libm := libm_examples) 512
           (ProjectileSimulator_new vertical_shot) vertical_flight p vertical_run E).
Defined.
